(** * Log-record formatters of jina/logging/formatter.py

    A shallow embedding of the four formatters ([ColorFormatter],
    [PlainFormatter], [JsonFormatter], [ProfileFormatter]) together with
    the parts of the Python runtime they call: [copy.copy] on a record,
    [re.sub] with the CSI pattern, [str()], [json.dumps(..., sort_keys=True)]
    and [logging.Formatter.format] with %-style templates.

    Python strings are sequences of code points; here a string is a
    [string] whose characters are the code points below 256.

    Objects live in a store: a record object is its attribute dictionary,
    a dict object is given by its items with string keys, its items with
    integer keys and a mark for keys of any other kind, and a value refers
    to a dict by its location, so that a record and its shallow copy share
    the dict their [msg] refers to. A call is a state-and-exception
    computation over the store.

    The definitions come first: strings and the regular expression, values
    and the store, [str()], the JSON encoder, %-formatting, the base
    formatter, the four formatters and the records used as examples. The
    properties follow, formatter by formatter. *)

From Stdlib Require Import ZArith String Ascii List Decimal DecimalString Bool Lia.
From stdpp Require Import gmap strings list fin_maps sorting.

Local Open Scope string_scope.
Local Open Scope Z_scope.

(** ** Characters and strings *)

Definition ESC : ascii := "027"%char.
Definition LF : ascii := "010"%char.

Definition code (c : ascii) : N := N_of_ascii c.

(** The class [[@-~]] of the pattern. *)
Definition is_final (c : ascii) : bool :=
  ((64 <=? code c) && (code c <=? 126))%N.

Fixpoint str_take (n : nat) (s : string) : string :=
  match n, s with
  | S k, String c t => String c (str_take k t)
  | _, _ => EmptyString
  end.

Fixpoint str_mem (c : ascii) (s : string) : bool :=
  match s with
  | EmptyString => false
  | String d t => Ascii.eqb c d || str_mem c t
  end.

(** Text without [%], which %-formatting copies as it is. *)
Fixpoint percent_free (s : string) : bool :=
  match s with
  | EmptyString => true
  | String c t => negb (Ascii.eqb c "%") && percent_free t
  end.

(** Text without a line feed. *)
Fixpoint one_line (s : string) : bool :=
  match s with
  | EmptyString => true
  | String c t => negb (Ascii.eqb c LF) && one_line t
  end.

Fixpoint str_snoc (s : string) (c : ascii) : string :=
  match s with
  | EmptyString => String c EmptyString
  | String d t => String d (str_snoc t c)
  end.

Fixpoint str_prefix (p s : string) : bool :=
  match p, s with
  | EmptyString, _ => true
  | String a p', String b s' => Ascii.eqb a b && str_prefix p' s'
  | String _ _, EmptyString => false
  end.

(** [needle in s], as [str.find(needle) >= 0]. *)
Fixpoint str_contains (needle s : string) : bool :=
  str_prefix needle s ||
  match s with
  | EmptyString => false
  | String _ t => str_contains needle t
  end.

Fixpoint str_join (sep : string) (l : list string) : string :=
  match l with
  | [] => ""
  | [x] => x
  | x :: l' => x ++ sep ++ str_join sep l'
  end.

(** ** The regular expression [\u001b\[.*?[@-~]] and [re.sub(pat, '', s)] *)

(** After [ESC '['], the lazy [.*?] extends over characters other than the
    line feed until the first character of the class [[@-~]]; the result is
    the number of characters up to and including that one. *)
Fixpoint csi_tail (s : string) : option nat :=
  match s with
  | EmptyString => None
  | String c t =>
      if is_final c then Some 1%nat
      else if Ascii.eqb c LF then None
      else S <$> csi_tail t
  end.

(** Length of the match of the pattern at the head of [s], if any. *)
Definition csi_at (s : string) : option nat :=
  match s with
  | String c (String d u) =>
      if Ascii.eqb c ESC && Ascii.eqb d "["%char
      then (fun n => S (S n)) <$> csi_tail u
      else None
  | _ => None
  end.

(** The left-to-right scan of [re.sub]: at a position where the pattern
    matches, the match is dropped and the scan resumes after it; elsewhere
    the character is kept. [skip] counts the characters of the current
    match still to drop. *)
Fixpoint sub_csi (skip : nat) (s : string) : string :=
  match s with
  | EmptyString => EmptyString
  | String c t =>
      match skip with
      | S k => sub_csi k t
      | O =>
          match csi_at s with
          | Some n => sub_csi (Nat.pred n) t
          | None => String c (sub_csi 0 t)
          end
      end
  end.

Definition strip_csi (s : string) : string := sub_csi 0 s.

(** [re.search(pat, s) is not None]. *)
Fixpoint has_csi (s : string) : bool :=
  match csi_at s with
  | Some _ => true
  | None => match s with
            | EmptyString => false
            | String _ t => has_csi t
            end
  end.

(** ** Exceptions and results *)

(** [OtherError] stands for any exception class that is none of the
    others, by its name. *)
Inductive exn :=
  | AttributeError
  | KeyError
  | TypeError
  | ValueError
  | OverflowError
  | OtherError (name : string).

(** [Unmodelled] marks a use of the runtime outside the fragment embedded
    here (a template directive with flags or widths, a numeric conversion
    of an [opaque] object, a dict with keys that are neither strings nor
    integers). *)
Inductive result (A : Type) :=
  | Ok (a : A)
  | Raise (e : exn)
  | Unmodelled.
Arguments Ok {A} a.
Arguments Raise {A} e.
Arguments Unmodelled {A}.

Definition rbind {A B} (m : result A) (k : A -> result B) : result B :=
  match m with
  | Ok a => k a
  | Raise e => Raise e
  | Unmodelled => Unmodelled
  end.

Definition rmap {A B} (f : A -> B) (m : result A) : result B :=
  rbind m (fun a => Ok (f a)).

Fixpoint rmapM {A B} (f : A -> result B) (l : list A) : result (list B) :=
  match l with
  | [] => Ok []
  | x :: l' => rbind (f x) (fun y => rbind (rmapM f l') (fun ys => Ok (y :: ys)))
  end.

(** ** Python values *)

Definition loc := positive.

(** A float, identified by its shortest decimal representation (what
    [float.__repr__] prints). *)
Inductive pyfloat :=
  | FNan
  | FInf (neg : bool)
  | FNum (d : decimal).

(** Any other object (tuple, list, set, bytes, exception, user class, ...).
    The formatters never look inside such an object; the runtime does, and
    the object is described by what the runtime makes of it: what [str()]
    does with it (the text it returns, or the exception [__str__] raises),
    the text the JSON encoder produces ([None] when the encoder raises
    [TypeError]) and its truth value. *)
Record opaque := Opaque {
  o_text : result string;
  o_json : option string;
  o_truth : bool
}.

Inductive value :=
  | VNone
  | VBool (b : bool)
  | VInt (z : Z)
  | VFloat (f : pyfloat)
  | VStr (s : string)
  | VDict (l : loc)          (* a dict object, by reference *)
  | VObj (o : opaque).

(** A mapping from string keys: the attribute dictionary of an object, a
    dict built by a comprehension over attribute names, the items of a
    dict object that have a string key. With [sort_keys=True] the
    insertion order is not observable. *)
Abbreviation pydict := (gmap string value).

(** The attribute dictionary of a record object ([record.__dict__]). *)
Abbreviation attrs := (gmap string value).

(** A dict object. Its keys may be of any hashable type: [d_str] holds
    the items whose key is a [str], [d_int] those whose key is an [int]
    (not a [bool]), and [d_other] tells whether the dict has a key of
    another kind (bool, float, [None], tuple, ...), of which nothing more
    is recorded. *)
Record dictobj := Dict {
  d_str : pydict;
  d_int : gmap Z value;
  d_other : bool
}.

(** The dict with the items [d], all under string keys, and the dict
    without items. *)
Definition dict_of (d : pydict) : dictobj := Dict d ∅ false.

Definition empty_dict : dictobj := dict_of ∅.

Definition is_empty_dict (o : dictobj) : bool :=
  bool_decide (d_str o = ∅) && bool_decide (d_int o = ∅) && negb (d_other o).

(** The object store: record objects and dict objects, by location. *)
Record store := Store {
  recs : gmap loc attrs;
  dicts : gmap loc dictobj
}.

Definition the_record (σ : store) (r : loc) : attrs := default ∅ (recs σ !! r).

(** The dict object at [l], and its items with a string key. *)
Definition the_obj (δ : gmap loc dictobj) (l : loc) : dictobj :=
  default empty_dict (δ !! l).
Definition the_dict (δ : gmap loc dictobj) (l : loc) : pydict := d_str (the_obj δ l).

(** ** The state-and-exception monad *)

Definition M (A : Type) : Type := store -> store * result A.

Definition ret {A} (a : A) : M A := fun σ => (σ, Ok a).
Definition raise {A} (e : exn) : M A := fun σ => (σ, Raise e).
Definition liftr {A} (m : result A) : M A := fun σ => (σ, m).
Definition gets {A} (f : store -> A) : M A := fun σ => (σ, Ok (f σ)).
Definition bind {A B} (m : M A) (k : A -> M B) : M B :=
  fun σ => match m σ with
           | (σ', Ok a) => k a σ'
           | (σ', Raise e) => (σ', Raise e)
           | (σ', Unmodelled) => (σ', Unmodelled)
           end.

Declare Scope py_scope.
Delimit Scope py_scope with py.
Notation "'let!' x ':=' m 'in' k" := (bind m (fun x => k))
  (at level 10, x pattern, m at level 100, k at level 200) : py_scope.
Notation "m '>>' k" := (bind m (fun _ => k))
  (at level 61, left associativity, only parsing) : py_scope.
Notation "'let?' x ':=' m 'in' k" := (rbind m (fun x => k))
  (at level 10, x pattern, m at level 100, k at level 200) : py_scope.
Local Open Scope py_scope.

(** [getattr(obj, k)] and [obj.k = v] on a record. *)
Definition getattr (r : loc) (k : string) : M value :=
  let! a := gets (fun σ => the_record σ r) in
  match a !! k with
  | Some v => ret v
  | None => raise AttributeError
  end.

Definition setattr (r : loc) (k : string) (v : value) : M unit :=
  fun σ => (Store (<[r := <[k := v]> (the_record σ r)]> (recs σ)) (dicts σ), Ok tt).

(** [copy.copy(record)]: a new record object with the same attribute
    bindings; attribute values that are references are shared. *)
Definition copy (r : loc) : M loc :=
  fun σ => let c := fresh (dom (recs σ)) in
           (Store (<[c := the_record σ r]> (recs σ)) (dicts σ), Ok c).

(** ** Numbers as text *)

Definition int_text (z : Z) : string := NilZero.string_of_int (Z.to_int z).

(** The number of decimal digits of an integer. *)
Definition int_digits (z : Z) : nat := String.length (int_text (Z.abs z)).

(** [repr] of a finite float: [i.f], or [i[.f]e±xx] in exponent form. *)
Definition decimal_text (d : decimal) : string :=
  match d with
  | Decimal i f =>
      NilZero.string_of_int i ++ "." ++ NilZero.string_of_uint f
  | DecimalExp i f e =>
      NilZero.string_of_int i ++
      match f with
      | Nil => ""
      | _ => "." ++ NilEmpty.string_of_uint f
      end ++ "e" ++
      match e with
      | Pos u => "+" ++ NilZero.string_of_uint u
      | Neg u => "-" ++ NilZero.string_of_uint u
      end
  end.

(** [str(x)] and [repr(x)] of a float. *)
Definition float_repr (f : pyfloat) : string :=
  match f with
  | FNan => "nan"
  | FInf false => "inf"
  | FInf true => "-inf"
  | FNum d => decimal_text d
  end.

(** The decimal of a finite float as [m * 10^e]. *)
Definition decimal_num (d : decimal) : Z * Z :=
  match d with
  | Decimal i f => (Z.of_int (app_int i f), - Z.of_nat (nb_digits f))
  | DecimalExp i f e => (Z.of_int (app_int i f), Z.of_int e - Z.of_nat (nb_digits f))
  end.

(** The decimal truncated towards zero. *)
Definition decimal_trunc (d : decimal) : Z :=
  let '(m, e) := decimal_num d in
  if 0 <=? e then m * 10 ^ e else Z.quot m (10 ^ (- e)).

(** The integer the decimal is equal to, if any. *)
Definition decimal_int (d : decimal) : option Z :=
  let '(m, e) := decimal_num d in
  if 0 <=? e then Some (m * 10 ^ e)
  else if Z.rem m (10 ^ (- e)) =? 0 then Some (Z.quot m (10 ^ (- e)))
  else None.

(** The number of digits the decimal is written with. *)
Definition decimal_digits (d : decimal) : nat :=
  match d with
  | Decimal i f | DecimalExp i f _ =>
      (nb_digits (match i with Pos u | Neg u => u end) + nb_digits f)%nat
  end.

(** The float itself is a binary number, and the decimal tells its value
    in two cases only. A decimal that is an integer below [2^53] in
    absolute value is the value of the float. A decimal of at most 15
    digits that is no integer, and not below [10^-300], stands for a float
    that is no integer either and has the same integer part. Elsewhere
    (as for [1e23]) the value of the float is not the decimal.
    [float_as_int] is the integer the float is equal to ([Some None]: it
    is equal to none), [float_trunc] is [int(x)]. *)
Definition float_as_int (d : decimal) : option (option Z) :=
  match decimal_int d with
  | Some z => if Z.abs z <? 2 ^ 53 then Some (Some z) else None
  | None =>
      let '(m, e) := decimal_num d in
      if (decimal_digits d <=? 15)%nat && (-300 <=? e) then Some None else None
  end.

Definition float_trunc (d : decimal) : option Z :=
  match float_as_int d with
  | Some (Some z) => Some z
  | Some None => Some (decimal_trunc d)
  | None => None
  end.

(** ** The runtime services the formatters rely on *)

(** Library behaviour that is taken as given: the limit on the number of
    digits in the conversion between [int] and [str]
    ([sys.get_int_max_str_digits()], 0 when there is none), [str()] of a
    dict (it prints the [repr] of the keys and values, and raises what one
    of these raises), the [%] operator of [LogRecord.getMessage]
    ([msg % args], positional or by mapping), [Formatter.formatTime] and
    [Formatter.formatException]. *)
Record runtime := Runtime {
  max_str_digits : nat;
  dict_text : dictobj -> result string;
  str_mod : gmap loc dictobj -> string -> value -> result string;
  formatTime : attrs -> string;
  formatException : value -> string
}.

(** ** [str()] and truth values *)

(** [str(z)] and [repr(z)] of an integer: [ValueError] when the integer
    has more digits than the limit. *)
Definition int_fits (rt : runtime) (z : Z) : bool :=
  negb ((0 <? max_str_digits rt)%nat && (max_str_digits rt <? int_digits z)%nat).

Definition int_str (rt : runtime) (z : Z) : result string :=
  if int_fits rt z then Ok (int_text z) else Raise ValueError.

(** [str(v)]: the text, or the exception the conversion raises. *)
Definition py_str (rt : runtime) (δ : gmap loc dictobj) (v : value) : result string :=
  match v with
  | VNone => Ok "None"
  | VBool true => Ok "True"
  | VBool false => Ok "False"
  | VInt z => int_str rt z
  | VFloat f => Ok (float_repr f)
  | VStr s => Ok s
  | VDict l => dict_text rt (the_obj δ l)
  | VObj o => o_text o
  end.

(** [bool(x)], as in [if x:]. *)
Definition truthy (δ : gmap loc dictobj) (v : value) : bool :=
  match v with
  | VNone => false
  | VBool b => b
  | VInt z => negb (z =? 0)
  | VFloat (FNum d) => negb (fst (decimal_num d) =? 0)
  | VFloat _ => true
  | VStr s => negb (String.eqb s "")
  | VDict l => negb (is_empty_dict (the_obj δ l))
  | VObj o => o_truth o
  end.

Definition is_str (v : value) : bool :=
  match v with VStr _ => true | _ => false end.

Definition is_dict (v : value) : bool :=
  match v with VDict _ => true | _ => false end.

(** ** [json.dumps(obj, sort_keys=True)] *)

Definition hex_digit (n : N) : ascii :=
  ascii_of_N (if (n <? 10)%N then 48 + n else 87 + n)%N.

Definition DQ : string := String "034"%char "".

(** One character of a JSON string with [ensure_ascii=True]: the quote and
    the backslash are escaped, and so is everything outside [' '..'~']. *)
Definition json_char (c : ascii) : string :=
  let n := code c in
  if (n =? 34)%N then String "\"%char DQ
  else if (n =? 92)%N then "\\"
  else if (n =? 10)%N then "\n"
  else if (n =? 13)%N then "\r"
  else if (n =? 9)%N then "\t"
  else if (n =? 8)%N then "\b"
  else if (n =? 12)%N then "\f"
  else if ((n <? 32) || (126 <? n))%N
       then "\u00" ++ String (hex_digit (n / 16)) (String (hex_digit (n mod 16)) "")
  else String c "".

Fixpoint json_escape (s : string) : string :=
  match s with
  | EmptyString => ""
  | String c t => json_char c ++ json_escape t
  end.

Definition json_string (s : string) : string := DQ ++ json_escape s ++ DQ.

Definition float_json (f : pyfloat) : string :=
  match f with
  | FNan => "NaN"
  | FInf false => "Infinity"
  | FInf true => "-Infinity"
  | FNum d => decimal_text d
  end.

(** One member ["key": value] and the object [{m1, m2, ...}], with the
    default separators. *)
Definition json_member (kj : string * string) : string :=
  json_string (fst kj) ++ ": " ++ snd kj.

Definition json_object (kjs : list (string * string)) : string :=
  "{" ++ str_join ", " (map json_member kjs) ++ "}".

Definition key_le (a b : string * value) : Prop :=
  String.leb (fst a) (fst b) = true.

#[local] Instance key_le_dec a b : Decision (key_le a b).
Proof. unfold key_le. apply _. Defined.

Definition str_le (a b : string) : Prop := String.leb a b = true.

(** [sorted(d.items())] for string keys: the items by increasing key. *)
Definition sorted_items (d : pydict) : list (string * value) :=
  merge_sort key_le (map_to_list d).

(** The encoder for the items under string keys, given the encoder [enc]
    for the values: the members are produced in key order and the first
    failure is raised. *)
Definition encode_dict (enc : value -> result string) (d : pydict) : result string :=
  let? kjs := rmapM (fun kv => let? j := enc (snd kv) in Ok (fst kv, j)) (sorted_items d) in
  Ok (json_object kjs).

Definition int_key_le (a b : Z * value) : Prop := (fst a <= fst b)%Z.

#[local] Instance int_key_le_dec a b : Decision (int_key_le a b).
Proof. unfold int_key_le. apply _. Defined.

(** [sorted(d.items())] for integer keys. *)
Definition sorted_int_items (d : gmap Z value) : list (Z * value) :=
  merge_sort int_key_le (map_to_list d).

(** The encoder for the items under integer keys: each key is written as
    the string of its digits, then its value is encoded. *)
Definition encode_int_dict (rt : runtime) (enc : value -> result string)
    (d : gmap Z value) : result string :=
  let? kjs := rmapM (fun kv => let? k := int_str rt (fst kv) in
                               let? j := enc (snd kv) in Ok (k, j))
                    (sorted_int_items d) in
  Ok (json_object kjs).

(** The encoder for a dict object. The items are sorted before anything
    is written, and a string key is not comparable with an integer key:
    with keys of both kinds the sort raises [TypeError]. How keys of
    another kind compare is not known. *)
Definition encode_obj (rt : runtime) (enc : value -> result string)
    (o : dictobj) : result string :=
  if d_other o then Unmodelled
  else if bool_decide (d_int o = ∅) then encode_dict enc (d_str o)
  else if bool_decide (d_str o = ∅) then encode_int_dict rt enc (d_int o)
  else Raise TypeError.

(** The encoder. [n] bounds the nesting of dict objects: the store has
    finitely many of them, so a chain of references longer than their
    number goes through one dict twice, which is the circular reference
    the encoder reports with [ValueError]. *)
Fixpoint encode (rt : runtime) (n : nat) (δ : gmap loc dictobj) (v : value)
    : result string :=
  match v with
  | VNone => Ok "null"
  | VBool true => Ok "true"
  | VBool false => Ok "false"
  | VInt z => int_str rt z
  | VFloat f => Ok (float_json f)
  | VStr s => Ok (json_string s)
  | VObj o => match o_json o with
              | Some j => Ok j
              | None => Raise TypeError
              end
  | VDict l => match n with
               | O => Raise ValueError
               | S m => encode_obj rt (encode rt m δ) (the_obj δ l)
               end
  end.

(** The JSON text the encoder produces for an [opaque] object has no line
    break (no indentation is asked for). *)
Definition compact (v : value) : Prop :=
  match v with
  | VObj o => match o_json o with
              | Some j => one_line j = true
              | None => True
              end
  | _ => True
  end.

Definition compact_dict (d : pydict) : Prop :=
  forall k v, d !! k = Some v -> compact v.

Definition compact_obj (o : dictobj) : Prop :=
  compact_dict (d_str o) /\ forall z v, d_int o !! z = Some v -> compact v.

Definition compact_store (δ : gmap loc dictobj) : Prop :=
  forall l o, δ !! l = Some o -> compact_obj o.

(** Values the encoder handles without looking into the store. *)
Definition plain_json (rt : runtime) (v : value) : bool :=
  match v with
  | VDict _ => false
  | VObj o => bool_decide (is_Some (o_json o))
  | VInt z => int_fits rt z
  | _ => true
  end.

(** Every member of [d], the items of a dict object of the store [δ], is
    encoded. *)
Definition members_encode (rt : runtime) (δ : gmap loc dictobj) (d : pydict) : Prop :=
  forall k v, d !! k = Some v -> exists j, encode rt (size δ) δ v = Ok j.

Definition json_dumps (rt : runtime) (δ : gmap loc dictobj) (v : value) : result string :=
  encode rt (S (size δ)) δ v.

(** [json.dumps] of a dict that was just built, with string keys, and is
    not in the store. *)
Definition json_dumps_fresh (rt : runtime) (δ : gmap loc dictobj) (d : pydict)
    : result string :=
  encode_dict (encode rt (S (size δ)) δ) d.

(** A dict whose keys are all strings, and a store in which every dict
    has string and integer keys only. *)
Definition str_keyed (o : dictobj) : Prop := d_int o = ∅ /\ d_other o = false.

Definition known_keys (δ : gmap loc dictobj) : Prop :=
  forall l o, δ !! l = Some o -> d_other o = false.

(** ** [fmt % record.__dict__]: %-formatting by mapping key

    The directives [%(key)s], [%(key)d] (and [%(key)i]) and [%%] are
    embedded; flags, widths, precisions, the other conversions and
    directives without a key are [Unmodelled]. *)

Inductive pstate :=
  | PText (used : bool)              (* literal text *)
  | PPercent (used : bool)           (* after '%' *)
  | PKey (depth : nat) (k : string)  (* inside '(' ... ')' *)
  | PConv (v : value).               (* key looked up, conversion expected *)

(** Flags, width, precision, length modifiers and conversion types. *)
Definition directive_chars : string := "#0123456789-+ .*hlLdiouxXeEfFgGcrsa%".

(** [%d]: the integer, or [int(x)] of a float where the decimal tells
    it. *)
Definition conv_int (rt : runtime) (v : value) : result string :=
  match v with
  | VInt z => int_str rt z
  | VBool b => Ok (if b then "1" else "0")
  | VFloat (FNum d) => match float_trunc d with
                       | Some z => Ok (int_text z)
                       | None => Unmodelled
                       end
  | VFloat (FInf _) => Raise OverflowError
  | VFloat FNan => Raise ValueError
  | VObj _ => Unmodelled
  | _ => Raise TypeError
  end.

Section Percent.
Variable rt : runtime.
Variable δ : gmap loc dictobj.
Variable vals : attrs.

(** What follows the key: [s] and [d]/[i] are embedded; the other
    characters a directive may continue with are [Unmodelled]; anything
    else is an unsupported format character. *)
Definition convert (c : ascii) (v : value) : result string :=
  if Ascii.eqb c "s" then py_str rt δ v
  else if Ascii.eqb c "d" || Ascii.eqb c "i" then conv_int rt v
  else if str_mem c directive_chars then Unmodelled
  else Raise ValueError.

(** [used] tells whether a directive with a key has been converted: a
    directive without a key that follows one finds no argument left, which
    is a [TypeError] raised before the conversion character is looked
    at. *)
Fixpoint percent_scan (st : pstate) (s : string) : result string :=
  match s with
  | EmptyString =>
      match st with
      | PText _ => Ok ""
      | _ => Raise ValueError          (* incomplete format *)
      end
  | String c t =>
      match st with
      | PText u =>
          if Ascii.eqb c "%" then percent_scan (PPercent u) t
          else let? out := percent_scan (PText u) t in Ok (String c out)
      | PPercent u =>
          if Ascii.eqb c "%" then
            let? out := percent_scan (PText u) t in Ok (String "%" out)
          else if Ascii.eqb c "(" then percent_scan (PKey 0 "") t
          else if str_mem c directive_chars then Unmodelled
          else if u then Raise TypeError   (* not enough arguments *)
          else Raise ValueError            (* unsupported format character *)
      | PKey depth k =>
          if Ascii.eqb c ")" then
            match depth with
            | O => match vals !! k with
                   | Some v => percent_scan (PConv v) t
                   | None => Raise KeyError
                   end
            | S d => percent_scan (PKey d (str_snoc k c)) t
            end
          else if Ascii.eqb c "(" then percent_scan (PKey (S depth) (str_snoc k c)) t
          else percent_scan (PKey depth (str_snoc k c)) t
      | PConv v =>
          let? x := convert c v in
          let? out := percent_scan (PText true) t in
          Ok (x ++ out)
      end
  end.

Definition percent_format (fmt : string) : result string :=
  percent_scan (PText false) fmt.
End Percent.

(** ** [logging.LogRecord.getMessage] and [logging.Formatter.format] *)

Fixpoint ends_with_nl (s : string) : bool :=
  match s with
  | EmptyString => false
  | String c EmptyString => Ascii.eqb c LF
  | String _ t => ends_with_nl t
  end.

(** [if s[-1:] != "\n": s = s + "\n"]. *)
Definition add_nl (s : string) : string :=
  if ends_with_nl s then s else s ++ String LF "".

(** [s + x]: concatenation needs a str on the right. *)
Definition str_add (s : string) (x : value) : result string :=
  match x with
  | VStr t => Ok (s ++ t)
  | _ => Raise TypeError
  end.

Section Logging.
Variable rt : runtime.

(** [msg = str(self.msg)]
    [if self.args: msg = msg % self.args]
    [return msg] *)
Definition getMessage (r : loc) : M string :=
  let! msg := getattr r "msg" in
  let! δ := gets dicts in
  let! text := liftr (py_str rt δ msg) in
  let! args := getattr r "args" in
  if truthy δ args then liftr (str_mod rt δ text args) else ret text.

(** [PercentStyle.usesTime]. *)
Definition usesTime (fmt : string) : bool := str_contains "%(asctime)" fmt.

(** [PercentStyle.format]: [fmt % record.__dict__], a missing field being
    reported as [ValueError] (Python 3.8 and later). *)
Definition formatMessage (fmt : string) (r : loc) : M string :=
  let! a := gets (fun σ => the_record σ r) in
  let! δ := gets dicts in
  liftr match percent_format rt δ a fmt with
        | Raise KeyError => Raise ValueError
        | res => res
        end.

(** [logging.Formatter(fmt).format(record)], in its three steps. The
    first stores the derived attributes [message] and [asctime] in the
    record. *)
Definition store_message (fmt : string) (r : loc) : M unit :=
  let! m := getMessage r in
  setattr r "message" (VStr m) >>
  if usesTime fmt then
    let! a := gets (fun σ => the_record σ r) in
    setattr r "asctime" (VStr (formatTime rt a))
  else ret tt.

(** The last appends the exception text, rendered once and kept in
    [exc_text], and the stack text. *)
Definition append_traces (r : loc) (s : string) : M string :=
  let! δ := gets dicts in
  let! exc_info := getattr r "exc_info" in
  (if truthy δ exc_info then
     let! exc_text := getattr r "exc_text" in
     if truthy δ exc_text then ret tt
     else setattr r "exc_text" (VStr (formatException rt exc_info))
   else ret tt) >>
  let! exc_text := getattr r "exc_text" in
  let! s := (if truthy δ exc_text then liftr (str_add (add_nl s) exc_text) else ret s) in
  let! stack_info := getattr r "stack_info" in
  if truthy δ stack_info then liftr (str_add (add_nl s) stack_info) else ret s.

Definition Formatter_format (fmt : string) (r : loc) : M string :=
  store_message fmt r >>
  let! s := formatMessage fmt r in
  append_traces r s.
End Logging.

(** ** Severity levels and styles *)

(** Modelled from the spec: [LogVerbosity] of jina/enums.py is not among
    the sources. §3 enumerates the six severity levels; the integer each one
    stands for is the parameter [level_code] below. *)
Inductive LogVerbosity := DEBUG | INFO | SUCCESS | WARNING | ERROR | CRITICAL.

Definition levels : list LogVerbosity :=
  [DEBUG; INFO; SUCCESS; WARNING; ERROR; CRITICAL].

Inductive color := black | green | yellow | red.
Inductive attr := bold.

(** The keyword arguments [dict(color=..., attrs=[...])]. *)
Record style := Style {
  st_color : option color;
  st_attrs : list attr
}.

(** [ColorFormatter.MAPPING]. *)
Definition MAPPING (k : LogVerbosity) : style :=
  match k with
  | DEBUG => Style (Some black) [bold]
  | INFO => Style None []
  | SUCCESS => Style (Some green) []
  | WARNING => Style (Some yellow) []
  | ERROR => Style (Some red) []
  | CRITICAL => Style (Some red) [bold]
  end.

(** The ANSI codes that switch a style on and off again. *)
Record palette := Palette {
  ansi_on : style -> string;
  ansi_off : style -> string
}.

(** Modelled from the spec: [colored] of jina/helper.py is not among the
    sources. §4.2: the literal template string "is wrapped in the level's
    ANSI style codes". *)
Definition colored (pal : palette) (text : string) (st : style) : string :=
  ansi_on pal st ++ text ++ ansi_off pal st.

(** ** The formatters *)

(** The object built by [ColorFormatter.__init__]: the template [_fmt] and
    the dict [formatters] of one [logging.Formatter] per level, each given
    by its template. *)
Record ColorFormatter := {
  cf_fmt : string;
  cf_formatters : list (LogVerbosity * string)
}.

(** [JsonFormatter.KEYS], a set: the order is of no account. *)
Definition KEYS : list string :=
  ["created"; "filename"; "funcName"; "levelname"; "lineno"; "msg"; "module";
   "name"; "pathname"; "process"; "thread"; "processName"; "threadName";
   "log_id"].

(** [{k: getattr(o, k) for k in keys if hasattr(o, k)}]. *)
Definition pick_present (keys : list string) (a : attrs) : pydict :=
  foldr (fun k d => match a !! k with
                    | Some v => <[k := v]> d
                    | None => d
                    end) ∅ keys.

(** [{k: getattr(o, k) for k in keys}]: the first missing attribute
    raises. *)
Fixpoint pick_all (r : loc) (keys : list string) : M (list (string * value)) :=
  match keys with
  | [] => ret []
  | k :: ks =>
      let! v := getattr r k in
      let! kvs := pick_all r ks in
      ret ((k, v) :: kvs)
  end.

(** [d.update(items)] and [d[k] = v] on the dict object at [l], for
    string keys: the items under other keys stay as they are. *)
Definition update_items (d : pydict) (items : list (string * value)) : pydict :=
  foldl (fun d kv => <[fst kv := snd kv]> d) d items.

Definition set_items (o : dictobj) (d : pydict) : dictobj :=
  Dict d (d_int o) (d_other o).

Definition dict_update (l : loc) (items : list (string * value)) : M unit :=
  fun σ =>
    let o := the_obj (dicts σ) l in
    (Store (recs σ) (<[l := set_items o (update_items (d_str o) items)]> (dicts σ)),
     Ok tt).

Definition dict_setitem (l : loc) (k : string) (v : value) : M unit :=
  dict_update l [(k, v)].

Section Formatters.
Variable rt : runtime.
Variable pal : palette.
Variable level_code : LogVerbosity -> Z.

(** *** ColorFormatter *)

(** [self.formatters = {k: logging.Formatter(colored(self._fmt, **v))
                        for k, v in self.MAPPING.items()}].
    A [logging.Formatter] is given by its template (the check of the
    template that recent versions of [logging] make at construction is not
    part of the model). *)
Definition ColorFormatter_init (fmt : string) : ColorFormatter :=
  {| cf_fmt := fmt;
     cf_formatters := map (fun k => (k, colored pal fmt (MAPPING k))) levels |}.

(** [k == v] for a level [k], an integer enumeration member. *)
Definition level_eq (k : LogVerbosity) (v : value) : bool :=
  match v with
  | VInt z => level_code k =? z
  | VBool b => level_code k =? Z.b2z b
  | VFloat (FNum d) => match float_as_int d with
                       | Some (Some z) => level_code k =? z
                       | _ => false
                       end
  | _ => false
  end.

(** [formatters.get(v)]: a dict is not hashable; what an [opaque] object
    is equal to is not known, nor is it for a float whose value the
    decimal does not tell. *)
Definition formatters_get (fs : list (LogVerbosity * string)) (v : value)
  : result (option string) :=
  match v with
  | VDict _ => Raise TypeError
  | VObj _ => Unmodelled
  | VFloat (FNum d) =>
      match float_as_int d with
      | Some _ => Ok (snd <$> List.find (fun kt => level_eq (fst kt) v) fs)
      | None => Unmodelled
      end
  | _ => Ok (snd <$> List.find (fun kt => level_eq (fst kt) v) fs)
  end.

(** [formatter = self.formatters.get(record.levelno)]
    [return formatter.format(record)] *)
Definition ColorFormatter_format (self : ColorFormatter) (record : loc) : M string :=
  let! levelno := getattr record "levelno" in
  let! formatter := liftr (formatters_get (cf_formatters self) levelno) in
  match formatter with
  | Some template => Formatter_format rt template record
  | None => raise AttributeError      (* None has no attribute format *)
  end.

(** *** PlainFormatter *)

(** [cr = copy(record)]
    [if isinstance(cr.msg, str):]
    [    cr.msg = re.sub(r'\u001b\[.*?[@-~]', '', str(cr.msg))[:512]]
    [return super().format(cr)] *)
Definition PlainFormatter_format (fmt : string) (record : loc) : M string :=
  let! cr := copy record in
  let! msg := getattr cr "msg" in
  match msg with
  | VStr s => setattr cr "msg" (VStr (str_take 512 (strip_csi s)))
  | _ => ret tt
  end >>
  Formatter_format rt fmt cr.

(** *** JsonFormatter *)

(** [cr = copy(record)]
    [cr.msg = re.sub(r'\u001b\[.*?[@-~]', '', str(cr.msg))]
    [return json.dumps({k: getattr(cr, k) for k in self.KEYS if hasattr(cr, k)},
                       sort_keys=True)] *)
Definition JsonFormatter_format (record : loc) : M string :=
  let! cr := copy record in
  let! msg := getattr cr "msg" in
  let! δ := gets dicts in
  let! text := liftr (py_str rt δ msg) in
  setattr cr "msg" (VStr (strip_csi text)) >>
  let! a := gets (fun σ => the_record σ cr) in
  liftr (json_dumps_fresh rt δ (pick_present KEYS a)).

(** *** ProfileFormatter *)

(** [cr = copy(record)]
    [if isinstance(cr.msg, dict):]
    [    cr.msg.update({k: getattr(cr, k)
                        for k in ['created', 'module', 'process', 'thread']})]
    [    cr.msg['memory'] = used_memory(unit=1)]
    [    return json.dumps(cr.msg, sort_keys=True)]
    [else: return '']
    [memory] is what [used_memory(unit=1)], of jina/logging/profile.py,
    returns at the call. *)
Definition ProfileFormatter_format (memory : value) (record : loc) : M string :=
  let! cr := copy record in
  let! msg := getattr cr "msg" in
  match msg with
  | VDict l =>
      let! items := pick_all cr ["created"; "module"; "process"; "thread"] in
      dict_update l items >>
      dict_setitem l "memory" memory >>
      let! δ := gets dicts in
      liftr (json_dumps rt δ (VDict l))
  | _ => ret ""
  end.
End Formatters.

(** ** A concrete runtime, palette and level numbering, for evaluation *)

(** A stand-in runtime: the limit on digits is the default one, the text
    of a dict is not spelled out, [%] with arguments is not exercised, time
    and traceback are fixed texts. *)
Definition rt0 : runtime :=
  {| max_str_digits := 4300;
     dict_text := fun _ => Ok "{...}";
     str_mod := fun _ _ _ => Unmodelled;
     formatTime := fun _ => "1970-01-01 00:00:00,000";
     formatException := fun _ => "Traceback" |}.

(** Select Graphic Rendition: [ESC [ n m]. *)
Definition sgr (n : Z) : string :=
  String ESC ("[" ++ int_text n ++ "m").

Definition color_code (c : color) : Z :=
  match c with black => 30 | red => 31 | green => 32 | yellow => 33 end.

Definition attr_code (a : attr) : Z :=
  match a with bold => 1 end.

(** The colour is applied first and each attribute wraps what is there;
    the reset closes the text. *)
Definition sgr_palette : palette :=
  {| ansi_on := fun st =>
       foldl (fun acc a => sgr (attr_code a) ++ acc)
             (match st_color st with Some c => sgr (color_code c) | None => "" end)
             (st_attrs st);
     ansi_off := fun _ => sgr 0 |}.

Definition level_code0 (k : LogVerbosity) : Z :=
  match k with
  | DEBUG => 10 | INFO => 20 | SUCCESS => 25
  | WARNING => 30 | ERROR => 40 | CRITICAL => 50
  end.

Definition empty_tuple : value := VObj (Opaque (Ok "()") (Some "[]") false).

Definition float_1700_5 : value :=
  VFloat (FNum (Decimal (Pos (D1 (D7 (D0 (D0 Nil))))) (D5 Nil))).

(** A record as [logging] builds it, without exception or stack. *)
Definition base_record (levelno : Z) (levelname : string) (msg : value) : attrs :=
  list_to_map
    [("name", VStr "jina"); ("msg", msg); ("args", empty_tuple);
     ("levelname", VStr levelname); ("levelno", VInt levelno);
     ("pathname", VStr "/app/run.py"); ("filename", VStr "run.py");
     ("module", VStr "run"); ("exc_info", VNone); ("exc_text", VNone);
     ("stack_info", VNone); ("lineno", VInt 42); ("funcName", VStr "main");
     ("created", float_1700_5);
     ("thread", VInt 7); ("threadName", VStr "MainThread");
     ("processName", VStr "MainProcess"); ("process", VInt 99)].

Definition one_record (a : attrs) : store := Store {[ 1%positive := a ]} ∅.

(** The record of §8: only [levelname], [msg] and [lineno] are set. *)
Definition json_example : attrs :=
  list_to_map [("levelname", VStr "INFO"); ("msg", VStr "hello"); ("lineno", VInt 42)].

Definition float_1024 : value :=
  VFloat (FNum (Decimal (Pos (D1 (D0 (D2 (D4 Nil))))) (D0 Nil))).

(** A record whose message is the dict [{"event": "x"}], an object of its
    own in the store. *)
Definition profile_store : store :=
  Store {[ 1%positive := base_record 20 "INFO" (VDict 5%positive) ]}
        {[ 5%positive := dict_of {[ "event" := VStr "x" ]} ]}.

(** The mapping after [update] with the four attributes and the
    assignment of [memory]. *)
Definition merged (d : pydict) (vc vm vp vt memory : value) : pydict :=
  <["memory" := memory]>
    (<["thread" := vt]> (<["process" := vp]> (<["module" := vm]> (<["created" := vc]> d)))).

(** [ESC ESC [ m [ m]: an escape sequence inside the pieces of another. *)
Definition nested_escape : string := String ESC (String ESC "[m[m").

Fixpoint str_repeat (n : nat) (c : ascii) : string :=
  match n with
  | O => EmptyString
  | S k => String c (str_repeat k c)
  end.

Definition long_message : string := str_repeat 600 "a".

(** An exception object, [ValueError('boom')]: it has a text and no JSON
    encoding. *)
Definition an_exception : value := VObj (Opaque (Ok "boom") None true).

(** A [uuid.UUID] object, as a correlation identifier may be: it has a
    text and no JSON encoding. *)
Definition a_uuid : value :=
  VObj (Opaque (Ok "0f8fad5b-d9cb-469f-a165-70867728950e") None true).

(** A record whose message is a dict holding an exception object. *)
Definition object_profile_store : store :=
  Store {[ 1%positive := base_record 20 "INFO" (VDict 5%positive) ]}
        {[ 5%positive := dict_of {[ "event" := an_exception ]} ]}.

(** A record whose message is the dict [{1: "a"}], with an integer
    key. *)
Definition int_key_profile_store : store :=
  Store {[ 1%positive := base_record 20 "INFO" (VDict 5%positive) ]}
        {[ 5%positive := Dict ∅ {[ 1 := VStr "a" ]} false ]}.

(** An object whose [__str__] raises [RuntimeError]. *)
Definition a_broken : value :=
  VObj (Opaque (Raise (OtherError "RuntimeError")) None true).

(** An object whose text holds an escape sequence. *)
Definition a_coloured_object : value :=
  VObj (Opaque (Ok (String ESC "[31mred")) None true).

(** ** What a computation may change

    [touches c m]: running [m] leaves every dict object and every record
    other than [c] as they were. *)
Definition touches {A} (c : loc) (m : M A) : Prop :=
  forall σ, dicts (fst (m σ)) = dicts σ /\
            forall r, r ≠ c -> recs (fst (m σ)) !! r = recs σ !! r.

(** ** Coloured text

    Text without the escape character, and text made of such pieces with
    an escape sequence [ESC [ params final] after each. *)
Fixpoint esc_free (s : string) : bool :=
  match s with
  | EmptyString => true
  | String c t => negb (Ascii.eqb c ESC) && esc_free t
  end.

(** What the pattern takes between [ESC [] and the final character: no
    character of the class [[@-~]] and no line feed. *)
Fixpoint csi_params (s : string) : bool :=
  match s with
  | EmptyString => true
  | String c t => negb (is_final c) && negb (Ascii.eqb c LF) && csi_params t
  end.

Record sequence := Sequence {
  seq_params : string;
  seq_final : ascii
}.

Definition seq_ok (q : sequence) : bool :=
  csi_params (seq_params q) && is_final (seq_final q).

Definition seq_text (q : sequence) (rest : string) : string :=
  String ESC (String "[" (seq_params q ++ String (seq_final q) rest)).

Fixpoint coloured (segs : list (string * sequence)) (tail : string) : string :=
  match segs with
  | [] => tail
  | (p, q) :: r => p ++ seq_text q (coloured r tail)
  end.

Fixpoint uncoloured (segs : list (string * sequence)) (tail : string) : string :=
  match segs with
  | [] => tail
  | (p, _) :: r => p ++ uncoloured r tail
  end.

(** Every piece is without the escape character and every sequence is
    one the pattern matches from [ESC] to its final character. *)
Definition well_coloured (segs : list (string * sequence)) : Prop :=
  Forall (fun pq => esc_free (fst pq) = true /\ seq_ok (snd pq) = true) segs.

(** ** Printable text

    Characters from the space to the tilde, the ones the JSON encoder
    leaves as they are. *)
Definition is_printable (c : ascii) : bool :=
  ((32 <=? code c) && (code c <=? 126))%N.

Fixpoint printable (s : string) : bool :=
  match s with
  | EmptyString => true
  | String c t => is_printable c && printable t
  end.

(** The JSON text of an [opaque] object is printable, as the encoder's
    output is with [ensure_ascii]. *)
Definition printable_value (v : value) : Prop :=
  match v with
  | VObj o => match o_json o with
              | Some j => printable j = true
              | None => True
              end
  | _ => True
  end.

Definition printable_dict (d : pydict) : Prop :=
  forall k v, d !! k = Some v -> printable_value v.

Definition printable_obj (o : dictobj) : Prop :=
  printable_dict (d_str o) /\ forall z v, d_int o !! z = Some v -> printable_value v.

Definition printable_store (δ : gmap loc dictobj) : Prop :=
  forall l o, δ !! l = Some o -> printable_obj o.

(** [touches_only c ks m]: running [m] leaves every dict object, every
    record other than [c], and every attribute of [c] outside [ks] as they
    were. *)
Definition touches_only {A} (c : loc) (ks : list string) (m : M A) : Prop :=
  forall σ, dicts (fst (m σ)) = dicts σ /\
            (forall r, r ≠ c -> recs (fst (m σ)) !! r = recs σ !! r) /\
            (forall k, k ∉ ks -> the_record (fst (m σ)) c !! k = the_record σ c !! k).

(** A runtime whose [%] takes a mapping, as [logging] keeps a single dict
    argument: [msg % args] is then the %-formatting by key embedded
    above. *)
Definition rt_map : runtime :=
  {| max_str_digits := max_str_digits rt0;
     dict_text := dict_text rt0;
     str_mod := fun δ text args =>
       match args with
       | VDict l => percent_format rt0 δ (the_dict δ l) text
       | _ => Unmodelled
       end;
     formatTime := formatTime rt0;
     formatException := formatException rt0 |}.

(** [logger.info("%(who)s", {"who": colored("root", "red")})]. *)
Definition coloured_argument_store : store :=
  Store {[ 1%positive := <["args" := VDict 5%positive]>
                           (base_record 20 "INFO" (VStr "%(who)s")) ]}
        {[ 5%positive := dict_of {[ "who" := VStr (sgr 31 ++ "root" ++ sgr 0) ]} ]}.

(** [logger.info("%(who)s" + 593 * "a", {"who": "root-account"})]: a
    message of 600 characters without an escape sequence, with an
    argument. *)
Definition long_template : string := "%(who)s" ++ str_repeat 593 "a".

Definition long_argument_store : store :=
  Store {[ 1%positive := <["args" := VDict 5%positive]>
                           (base_record 20 "INFO" (VStr long_template)) ]}
        {[ 5%positive := dict_of {[ "who" := VStr "root-account" ]} ]}.

(** * Properties *)

(** ** Strings *)

Lemma app_cons c (a b : string) : String c a ++ b = String c (a ++ b).
Proof. reflexivity. Qed.

Lemma app_nil_l (b : string) : "" ++ b = b.
Proof. reflexivity. Qed.

Lemma app_nil_r (a : string) : a ++ "" = a.
Proof. induction a as [|c a IH]; [reflexivity|]. rewrite app_cons, IH. reflexivity. Qed.

Lemma str_app_assoc (a b c : string) : (a ++ b) ++ c = a ++ (b ++ c).
Proof.
  induction a as [|x a IH]; [reflexivity|]. rewrite !app_cons, IH. reflexivity.
Qed.

Lemma length_str_take n s : String.length (str_take n s) = Nat.min n (String.length s).
Proof.
  revert s. induction n as [|n IH]; intros [|c t]; simpl; auto.
Qed.

Lemma sub_csi_none s : has_csi s = false -> sub_csi 0 s = s.
Proof.
  induction s as [|c t IH]; [reflexivity|].
  intros H. cbn [has_csi] in H. cbn [sub_csi].
  destruct (csi_at (String c t)); [discriminate|].
  rewrite IH; auto.
Qed.

Lemma percent_free_cons c t :
  percent_free (String c t) = true -> Ascii.eqb c "%" = false /\ percent_free t = true.
Proof.
  cbn [percent_free]. destruct (Ascii.eqb c "%"); simpl; auto. discriminate.
Qed.

Lemma percent_free_app s t :
  percent_free s = true -> percent_free t = true -> percent_free (s ++ t) = true.
Proof.
  induction s as [|c s IH]; [simpl; auto|].
  intros [Hc Hs]%percent_free_cons Ht. rewrite app_cons. cbn [percent_free].
  rewrite Hc. simpl. apply IH; auto.
Qed.

Lemma str_contains_free nd s :
  percent_free s = true -> str_contains (String "%" nd) s = false.
Proof.
  induction s as [|c t IH]; [reflexivity|].
  intros [Hc Ht]%percent_free_cons. cbn [str_contains str_prefix].
  rewrite Ascii.eqb_sym, Hc, IH; auto.
Qed.

Lemma str_contains_prefix nd pre x :
  percent_free pre = true ->
  str_contains (String "%" nd) (pre ++ x) = str_contains (String "%" nd) x.
Proof.
  induction pre as [|c t IH]; [reflexivity|].
  intros [Hc Ht]%percent_free_cons. rewrite app_cons. cbn [str_contains str_prefix].
  rewrite Ascii.eqb_sym, Hc, IH; auto.
Qed.

Lemma usesTime_message pre post :
  percent_free pre = true -> percent_free post = true ->
  usesTime (pre ++ "%(message)s" ++ post) = false.
Proof.
  intros Hpre Hpost. unfold usesTime.
  rewrite str_contains_prefix by exact Hpre.
  rewrite !app_cons, app_nil_l. cbn.
  apply str_contains_free; auto.
Qed.

Lemma one_line_app a b : one_line (a ++ b) = one_line a && one_line b.
Proof.
  induction a as [|c a IH]; [reflexivity|].
  rewrite app_cons. cbn [one_line]. rewrite IH, andb_assoc. reflexivity.
Qed.

(** ** Running a computation *)

Lemma bind_ok {A B} (m : M A) (k : A -> M B) σ σ' a :
  m σ = (σ', Ok a) -> bind m k σ = k a σ'.
Proof. unfold bind. intros ->. reflexivity. Qed.

Lemma gets_run {A} (f : store -> A) σ : gets f σ = (σ, Ok (f σ)).
Proof. reflexivity. Qed.

Lemma getattr_some r k σ v :
  the_record σ r !! k = Some v -> getattr r k σ = (σ, Ok v).
Proof. unfold getattr, bind, gets. intros ->. reflexivity. Qed.

Lemma the_record_insert σ c a δ :
  the_record (Store (<[c := a]> σ) δ) c = a.
Proof. unfold the_record. simpl. rewrite lookup_insert_eq. reflexivity. Qed.

Lemma the_record_some σ r a : recs σ !! r = Some a -> the_record σ r = a.
Proof. unfold the_record. intros ->. reflexivity. Qed.

Lemma the_obj_insert (δ : gmap loc dictobj) l o : the_obj (<[l := o]> δ) l = o.
Proof. unfold the_obj. rewrite lookup_insert_eq. reflexivity. Qed.

Lemma the_dict_insert (δ : gmap loc dictobj) l o : the_dict (<[l := o]> δ) l = d_str o.
Proof. unfold the_dict. rewrite the_obj_insert. reflexivity. Qed.

Lemma the_obj_some (δ : gmap loc dictobj) l o : δ !! l = Some o -> the_obj δ l = o.
Proof. unfold the_obj. intros ->. reflexivity. Qed.

Lemma getattr_insert ρ δ c a k v :
  a !! k = Some v -> getattr c k (Store (<[c := a]> ρ) δ) = (Store (<[c := a]> ρ) δ, Ok v).
Proof. intros H. apply getattr_some. rewrite the_record_insert. exact H. Qed.

Lemma setattr_insert ρ δ c a k v :
  setattr c k v (Store (<[c := a]> ρ) δ) = (Store (<[c := <[k := v]> a]> ρ) δ, Ok tt).
Proof.
  unfold setattr. rewrite the_record_insert. simpl. rewrite insert_insert_eq. reflexivity.
Qed.

Lemma copy_fresh σ r a :
  recs σ !! r = Some a -> fresh (dom (recs σ)) ≠ r.
Proof.
  intros H Heq. pose proof (is_fresh (dom (recs σ))) as Hf.
  apply Hf. rewrite Heq. apply elem_of_dom. eauto.
Qed.

Lemma copy_some σ r a :
  recs σ !! r = Some a ->
  copy r σ = (Store (<[fresh (dom (recs σ)) := a]> (recs σ)) (dicts σ), Ok (fresh (dom (recs σ)))).
Proof. intros H. unfold copy. rewrite (the_record_some _ _ _ H). reflexivity. Qed.

Lemma store_insert_id σ r a :
  recs σ !! r = Some a -> σ = Store (<[r := a]> (recs σ)) (dicts σ).
Proof. intros H. destruct σ as [ρ δ]. cbn in *. rewrite insert_id by exact H. reflexivity. Qed.

Ltac solve_lookup :=
  repeat (rewrite lookup_insert_ne by done);
  first [ eassumption | apply lookup_insert_eq ].

Ltac run_step :=
  first
    [ erewrite bind_ok by (apply getattr_insert; solve_lookup)
    | erewrite bind_ok by apply gets_run
    | erewrite bind_ok by apply setattr_insert
    | erewrite bind_ok by reflexivity ].

Lemma pick_all_insert c ρ δ (a : attrs) keys vs :
  Forall2 (fun k v => a !! k = Some v) keys vs ->
  pick_all c keys (Store (<[c := a]> ρ) δ) = (Store (<[c := a]> ρ) δ, Ok (zip keys vs)).
Proof.
  induction 1 as [|k v keys vs Hk _ IH]; [reflexivity|].
  cbn [pick_all]. run_step. erewrite bind_ok by exact IH. reflexivity.
Qed.

(** ** %-formatting *)

Section Percent_facts.
Variable rt : runtime.
Variable δ : gmap loc dictobj.
Variable vals : attrs.

Lemma percent_scan_literal u post :
percent_free post = true -> percent_scan rt δ vals (PText u) post = Ok post.
Proof.
induction post as [|c t IH]; [reflexivity|].
intros [Hc Ht]%percent_free_cons. cbn [percent_scan]. rewrite Hc, IH; auto.
Qed.

Lemma percent_scan_prefix u pre x :
percent_free pre = true ->
percent_scan rt δ vals (PText u) (pre ++ x) =
rmap (fun out => pre ++ out) (percent_scan rt δ vals (PText u) x).
Proof.
induction pre as [|c t IH].
- intros _. rewrite app_nil_l. destruct (percent_scan rt δ vals (PText u) x); reflexivity.
- intros [Hc Ht]%percent_free_cons. rewrite app_cons. cbn [percent_scan].
  rewrite Hc, IH; auto.
  destruct (percent_scan rt δ vals (PText u) x); reflexivity.
Qed.

Lemma percent_scan_suffix st x post out :
percent_free post = true ->
percent_scan rt δ vals st x = Ok out ->
percent_scan rt δ vals st (x ++ post) = Ok (out ++ post).
Proof.
intros Hp. revert st out. induction x as [|c t IH]; intros st out.
- rewrite app_nil_l. cbn [percent_scan]. destruct st; try discriminate.
  intros [= <-]. rewrite app_nil_l. apply percent_scan_literal; auto.
- rewrite app_cons. cbn [percent_scan]. destruct st as [u|u|depth k|v].
  + destruct (Ascii.eqb c "%"); [apply IH|].
    destruct (percent_scan rt δ vals (PText u) t) eqn:E; try discriminate.
    cbn [rbind]. intros [= <-]. rewrite (IH _ _ E). reflexivity.
  + destruct (Ascii.eqb c "%").
    { destruct (percent_scan rt δ vals (PText u) t) eqn:E; try discriminate.
      cbn [rbind]. intros [= <-]. rewrite (IH _ _ E). reflexivity. }
    destruct (Ascii.eqb c "("); [apply IH|].
    destruct (str_mem c directive_chars); [discriminate|]. destruct u; discriminate.
  + destruct (Ascii.eqb c ")").
    { destruct depth; [|apply IH]. destruct (vals !! k); [apply IH|discriminate]. }
    destruct (Ascii.eqb c "("); apply IH.
  + destruct (convert rt δ c v); try discriminate. cbn [rbind].
    destruct (percent_scan rt δ vals (PText true) t) eqn:E; try discriminate.
    cbn [rbind]. intros [= <-]. rewrite (IH _ _ E). cbn [rbind].
    rewrite str_app_assoc. reflexivity.
Qed.

Lemma percent_format_wrapped on off fmt body :
percent_free on = true -> percent_free off = true ->
percent_format rt δ vals fmt = Ok body ->
percent_format rt δ vals (on ++ fmt ++ off) = Ok (on ++ body ++ off).
Proof.
intros Hon Hoff H. unfold percent_format in *.
rewrite percent_scan_prefix by exact Hon.
rewrite (percent_scan_suffix _ _ _ _ Hoff H). reflexivity.
Qed.

Lemma percent_format_message pre post m :
percent_free pre = true -> percent_free post = true ->
vals !! "message" = Some (VStr m) ->
percent_format rt δ vals (pre ++ "%(message)s" ++ post) = Ok (pre ++ m ++ post).
Proof.
intros Hpre Hpost Hm. unfold percent_format.
rewrite percent_scan_prefix by exact Hpre.
rewrite !app_cons, app_nil_l.
cbn. rewrite Hm. cbn. rewrite percent_scan_literal by exact Hpost. reflexivity.
Qed.

End Percent_facts.

(** ** The base formatter *)

Section Logging_facts.
Variable rt : runtime.

Lemma getMessage_plain c ρ δ a msg args :
a !! "msg" = Some msg -> a !! "args" = Some args -> truthy δ args = false ->
getMessage rt c (Store (<[c := a]> ρ) δ) = (Store (<[c := a]> ρ) δ, py_str rt δ msg).
Proof.
intros Hmsg Hargs Ha. unfold getMessage.
do 2 run_step. cbn [dicts]. unfold liftr at 1, bind at 1.
destruct (py_str rt δ msg) as [text|e|]; try reflexivity.
run_step. rewrite Ha. reflexivity.
Qed.

Lemma store_message_plain fmt c ρ δ a msg args text :
usesTime fmt = false ->
a !! "msg" = Some msg -> py_str rt δ msg = Ok text ->
a !! "args" = Some args -> truthy δ args = false ->
store_message rt fmt c (Store (<[c := a]> ρ) δ) =
(Store (<[c := <["message" := VStr text]> a]> ρ) δ, Ok tt).
Proof.
intros Hu Hmsg Hs Hargs Ha. unfold store_message. rewrite Hu.
erewrite bind_ok by (rewrite <- Hs; eapply getMessage_plain; eassumption).
run_step. reflexivity.
Qed.

Lemma formatMessage_run fmt c ρ δ a :
formatMessage rt fmt c (Store (<[c := a]> ρ) δ) =
(Store (<[c := a]> ρ) δ,
 match percent_format rt δ a fmt with
 | Raise KeyError => Raise ValueError
 | res => res
 end).
Proof.
unfold formatMessage. do 2 run_step. cbn [dicts]. rewrite the_record_insert. reflexivity.
Qed.

Lemma append_traces_quiet c ρ δ a s ei et si :
a !! "exc_info" = Some ei -> truthy δ ei = false ->
a !! "exc_text" = Some et -> truthy δ et = false ->
a !! "stack_info" = Some si -> truthy δ si = false ->
append_traces rt c s (Store (<[c := a]> ρ) δ) = (Store (<[c := a]> ρ) δ, Ok s).
Proof.
intros Hei He Het Ht Hsi Hs. unfold append_traces.
do 2 run_step. cbn [dicts]. rewrite He.
do 2 run_step. rewrite Ht. do 2 run_step. rewrite Hs. reflexivity.
Qed.

Lemma Formatter_format_message pre post c ρ δ a msg args text ei et si :
percent_free pre = true -> percent_free post = true ->
a !! "msg" = Some msg -> py_str rt δ msg = Ok text ->
a !! "args" = Some args -> truthy δ args = false ->
a !! "exc_info" = Some ei -> truthy δ ei = false ->
a !! "exc_text" = Some et -> truthy δ et = false ->
a !! "stack_info" = Some si -> truthy δ si = false ->
Formatter_format rt (pre ++ "%(message)s" ++ post) c (Store (<[c := a]> ρ) δ) =
(Store (<[c := <["message" := VStr text]> a]> ρ) δ, Ok (pre ++ text ++ post)).
Proof.
intros Hpre Hpost Hmsg Hstr Hargs Ha Hei He Het Ht Hsi Hs.
unfold Formatter_format.
erewrite bind_ok
  by (eapply store_message_plain; eauto using usesTime_message).
erewrite bind_ok.
2:{ rewrite formatMessage_run.
    rewrite percent_format_message with (m := text)
      by (assumption || apply lookup_insert_eq). reflexivity. }
apply append_traces_quiet with (ei := ei) (et := et) (si := si);
  solve [ assumption | solve_lookup ].
Qed.

(** The same with a message whose [str()] raises: the formatter raises
    what [str()] raises. *)
Lemma Formatter_format_result pre post c ρ δ a msg args ei et si :
percent_free pre = true -> percent_free post = true ->
a !! "msg" = Some msg ->
a !! "args" = Some args -> truthy δ args = false ->
a !! "exc_info" = Some ei -> truthy δ ei = false ->
a !! "exc_text" = Some et -> truthy δ et = false ->
a !! "stack_info" = Some si -> truthy δ si = false ->
snd (Formatter_format rt (pre ++ "%(message)s" ++ post) c (Store (<[c := a]> ρ) δ)) =
rmap (fun text => pre ++ text ++ post) (py_str rt δ msg).
Proof.
intros Hpre Hpost Hmsg Hargs Ha Hei He Het Ht Hsi Hs.
destruct (py_str rt δ msg) as [text|e|] eqn:Hstr.
- erewrite Formatter_format_message; eauto.
- unfold Formatter_format, store_message, bind.
  rewrite (getMessage_plain c ρ δ a msg args Hmsg Hargs Ha), Hstr. reflexivity.
- unfold Formatter_format, store_message, bind.
  rewrite (getMessage_plain c ρ δ a msg args Hmsg Hargs Ha), Hstr. reflexivity.
Qed.

End Logging_facts.

(** ** Frames *)

Lemma touches_ret {A} c (a : A) : touches c (ret a).
Proof. intros σ. split; auto. Qed.

Lemma touches_raise {A} c e : touches c (@raise A e).
Proof. intros σ. split; auto. Qed.

Lemma touches_liftr {A} c (m : result A) : touches c (liftr m).
Proof. intros σ. split; auto. Qed.

Lemma touches_gets {A} c (f : store -> A) : touches c (gets f).
Proof. intros σ. split; auto. Qed.

Lemma touches_bind {A B} c (m : M A) (k : A -> M B) :
  touches c m -> (forall a, touches c (k a)) -> touches c (bind m k).
Proof.
  intros Hm Hk σ. unfold bind. destruct (Hm σ) as [Hd Hr].
  destruct (m σ) as [σ' [a| |]]; simpl in *; [|split; auto..].
  destruct (Hk a σ') as [Hd' Hr']. split; [congruence|].
  intros r Hne. rewrite Hr', Hr; auto.
Qed.

Lemma touches_getattr c r k : touches c (getattr r k).
Proof.
  unfold getattr. apply touches_bind; [apply touches_gets|].
  intros a. destruct (a !! k); [apply touches_ret|apply touches_raise].
Qed.

Lemma touches_setattr c k v : touches c (setattr c k v).
Proof.
  intros σ. split; [reflexivity|]. intros r Hne. simpl.
  rewrite lookup_insert_ne; auto.
Qed.

Ltac touches_step :=
  first
    [ apply touches_ret | apply touches_raise | apply touches_liftr
    | apply touches_gets | apply touches_getattr | apply touches_setattr
    | apply touches_bind; [|intros]
    | match goal with
      | |- touches _ (if ?b then _ else _) => destruct b
      | |- touches _ (match ?x with _ => _ end) => destruct x
      end
    | progress cbv zeta ].

Ltac touches_tac := repeat touches_step.

Lemma touches_after_copy {A} (k : loc -> M A) r σ a :
  recs σ !! r = Some a ->
  (forall c, touches c (k c)) ->
  recs (fst (bind (copy r) k σ)) !! r = Some a /\
  dicts (fst (bind (copy r) k σ)) = dicts σ.
Proof.
  intros Hr Hk. rewrite (bind_ok _ _ _ _ _ (copy_some _ _ _ Hr)).
  destruct (Hk (fresh (dom (recs σ)))
              (Store (<[fresh (dom (recs σ)) := a]> (recs σ)) (dicts σ))) as [Hd Hrec].
  split; [|exact Hd].
  rewrite Hrec by (intros E; symmetry in E; revert E; eapply copy_fresh; eauto).
  cbn [recs]. rewrite lookup_insert_ne by (eapply copy_fresh; eauto). exact Hr.
Qed.

(** ** The JSON encoder *)

Lemma rmapM_ok {A B} (f : A -> result B) l ys :
  rmapM f l = Ok ys -> Forall2 (fun x y => f x = Ok y) l ys.
Proof.
  revert ys. induction l as [|x l IH]; intros ys; cbn [rmapM].
  - intros [= <-]. constructor.
  - destruct (f x) eqn:E; try discriminate. cbn [rbind].
    destruct (rmapM f l) eqn:E'; try discriminate. cbn [rbind].
    intros [= <-]. constructor; auto.
Qed.

Lemma rmapM_all_ok {A B} (f : A -> result B) l :
  Forall (fun x => exists y, f x = Ok y) l -> exists ys, rmapM f l = Ok ys.
Proof.
  induction 1 as [|x l [y Hy] _ [ys IH]]; cbn [rmapM]; [eauto|].
  rewrite Hy, IH. cbn. eauto.
Qed.

Lemma rmapM_elem {A B} (f : A -> result B) l ys y :
  rmapM f l = Ok ys -> y ∈ ys -> exists x, x ∈ l /\ f x = Ok y.
Proof.
  intros H%rmapM_ok. induction H as [|x y' l ys Hx _ IH]; [inversion 1|].
  intros [->|Hin]%elem_of_cons.
  - exists x. split; [by apply elem_of_cons; left|exact Hx].
  - destruct (IH Hin) as (x' & Hx' & Hf). exists x'. split; [by apply elem_of_cons; right|exact Hf].
Qed.

Lemma rmapM_each {A B} (f : A -> result B) l ys x :
  rmapM f l = Ok ys -> x ∈ l -> exists y, f x = Ok y.
Proof.
  intros H%rmapM_ok. induction H as [|x' y l ys Hx _ IH]; [inversion 1|].
  intros [->|Hin]%elem_of_cons; eauto.
Qed.

Lemma rmapM_raise {A B} (f : A -> result B) l x :
  (forall z, z ∈ l -> f z <> Unmodelled) ->
  x ∈ l -> (forall y, f x <> Ok y) ->
  exists z e, z ∈ l /\ f z = Raise e /\ rmapM f l = Raise e.
Proof.
  induction l as [|z l IH]; intros Hu Hin Hx; [inversion Hin|].
  cbn [rmapM]. destruct (f z) as [y|e|] eqn:E.
  - apply elem_of_cons in Hin as [->|Hin]; [congruence|].
    destruct (IH (fun z' Hz' => Hu z' (proj2 (elem_of_cons _ _ _) (or_intror Hz'))) Hin Hx)
      as (z' & e & Hz & Hf & Hr).
    exists z', e. rewrite Hr. repeat split; auto. by apply elem_of_cons; right.
  - exists z, e. repeat split; auto. by apply elem_of_cons; left.
  - destruct (Hu z (proj2 (elem_of_cons _ _ _) (or_introl eq_refl)) E).
Qed.

#[local] Instance key_le_total : Total key_le.
Proof. intros a b. unfold key_le. apply String.leb_total. Qed.

Lemma sorted_items_perm (d : pydict) : sorted_items d ≡ₚ map_to_list d.
Proof. apply merge_sort_Permutation. Qed.

Lemma sorted_items_sorted (d : pydict) : Sorted str_le (map fst (sorted_items d)).
Proof.
  change (map fst (sorted_items d)) with (fst <$> sorted_items d).
  eapply Sorted_fmap with (R1 := key_le); [|apply Sorted_merge_sort, _].
  intros x y H. exact H.
Qed.

Lemma sorted_items_NoDup (d : pydict) : NoDup (map fst (sorted_items d)).
Proof.
  change (map fst (sorted_items d)) with ((sorted_items d).*1).
  rewrite sorted_items_perm. apply NoDup_fst_map_to_list.
Qed.

Lemma elem_of_sorted_items (d : pydict) k v :
  (k, v) ∈ sorted_items d <-> d !! k = Some v.
Proof. rewrite sorted_items_perm. apply elem_of_map_to_list. Qed.

Lemma elem_of_sorted_keys (d : pydict) k :
  k ∈ map fst (sorted_items d) <-> is_Some (d !! k).
Proof.
  change (map fst (sorted_items d)) with ((sorted_items d).*1).
  rewrite list_elem_of_fmap. split.
  - intros ([k' v] & -> & H). apply elem_of_sorted_items in H. eauto.
  - intros [v H]. exists (k, v). split; [reflexivity|]. by apply elem_of_sorted_items.
Qed.

Lemma encode_dict_ok enc (d : pydict) out :
  encode_dict enc d = Ok out ->
  exists kjs, out = json_object kjs /\
    map fst kjs = map fst (sorted_items d) /\
    forall k j, (k, j) ∈ kjs -> exists v, d !! k = Some v /\ enc v = Ok j.
Proof.
  unfold encode_dict.
  destruct (rmapM _ (sorted_items d)) as [kjs| |] eqn:E; try discriminate.
  cbn [rbind]. intros [= <-]. exists kjs. split; [reflexivity|].
  apply rmapM_ok in E. revert E. generalize (sorted_items_perm d).
  intros Hp E.
  assert (Hall : forall kv, kv ∈ sorted_items d -> d !! kv.1 = Some kv.2).
  { intros [k v] H. by apply elem_of_sorted_items. }
  clear Hp. induction E as [|[k v] [k' j] l l' Hx E IH].
  - split; [reflexivity|]. intros k j H. inversion H.
  - cbn [fst snd] in Hx. destruct (enc v) eqn:Ev; try discriminate.
    cbn [rbind] in Hx. injection Hx as <- <-.
    destruct IH as [IH1 IH2].
    { intros kv H. apply Hall. by apply elem_of_cons; right. }
    split; [cbn; by rewrite IH1|].
    intros k0 j0 [[= -> ->]|H]%elem_of_cons; [|by apply IH2].
    exists v. split; [|exact Ev]. apply (Hall (k, v)). by apply elem_of_cons; left.
Qed.

Lemma encode_dict_all_ok enc (d : pydict) :
  (forall k v, d !! k = Some v -> exists j, enc v = Ok j) ->
  exists out, encode_dict enc d = Ok out.
Proof.
  intros H. unfold encode_dict.
  destruct (rmapM_all_ok (fun kv => let? j := enc kv.2 in Ok (kv.1, j)) (sorted_items d))
    as [ys ->]; [|cbn; eauto].
  apply Forall_forall. intros [k v] Hin%elem_of_sorted_items.
  destruct (H _ _ Hin) as [j Hj]. cbn [fst snd]. rewrite Hj. cbn. eauto.
Qed.

Lemma encode_dict_members enc (d : pydict) out k v :
  encode_dict enc d = Ok out -> d !! k = Some v -> exists j, enc v = Ok j.
Proof.
  unfold encode_dict.
  destruct (rmapM _ (sorted_items d)) as [kjs| |] eqn:E; try discriminate.
  intros _ Hk. apply elem_of_sorted_items in Hk.
  destruct (rmapM_each _ _ _ _ E Hk) as [y Hy]. cbn [fst snd] in Hy.
  destruct (enc v); try discriminate. eauto.
Qed.

Lemma encode_dict_raise enc (d : pydict) k v :
  (forall k' v', d !! k' = Some v' -> enc v' <> Unmodelled) ->
  d !! k = Some v -> (forall j, enc v <> Ok j) ->
  exists k' v' e, d !! k' = Some v' /\ enc v' = Raise e /\ encode_dict enc d = Raise e.
Proof.
  intros Hu Hk Hv. unfold encode_dict.
  destruct (rmapM_raise (fun kv => let? j := enc kv.2 in Ok (kv.1, j)) (sorted_items d) (k, v))
    as ([k' v'] & e & Hin & Hf & Hr).
  - intros [k0 v0] Hin%elem_of_sorted_items. cbn [fst snd].
    specialize (Hu _ _ Hin). destruct (enc v0); cbn; congruence.
  - by apply elem_of_sorted_items.
  - intros y. cbn [fst snd]. destruct (enc v) eqn:E; cbn; congruence.
  - cbn [fst snd] in Hf. exists k', v', e. rewrite Hr. split; [by apply elem_of_sorted_items|].
    split; [|reflexivity]. destruct (enc v'); cbn in Hf; congruence.
Qed.

Lemma int_str_ok rt z j : int_str rt z = Ok j -> j = int_text z.
Proof. unfold int_str. destruct (int_fits rt z); congruence. Qed.

Lemma int_str_modelled rt z : int_str rt z <> Unmodelled.
Proof. unfold int_str. destruct (int_fits rt z); discriminate. Qed.

Lemma int_str_errors rt z e : int_str rt z = Raise e -> e = ValueError.
Proof. unfold int_str. destruct (int_fits rt z); congruence. Qed.

Lemma elem_of_sorted_int_items (d : gmap Z value) z v :
  (z, v) ∈ sorted_int_items d <-> d !! z = Some v.
Proof.
  unfold sorted_int_items. rewrite merge_sort_Permutation. apply elem_of_map_to_list.
Qed.

Lemma encode_int_dict_ok rt enc (d : gmap Z value) out :
  encode_int_dict rt enc d = Ok out ->
  exists kjs, out = json_object kjs /\
    forall k j, (k, j) ∈ kjs ->
      exists z v, d !! z = Some v /\ k = int_text z /\ enc v = Ok j.
Proof.
  unfold encode_int_dict.
  destruct (rmapM _ (sorted_int_items d)) as [kjs| |] eqn:E; try discriminate.
  cbn [rbind]. intros [= <-]. exists kjs. split; [reflexivity|].
  intros k j Hin. destruct (rmapM_elem _ _ _ _ E Hin) as ([z v] & Hx & Hf).
  cbn [fst snd] in Hf. apply elem_of_sorted_int_items in Hx.
  destruct (int_str rt z) as [ks| |] eqn:Hz; try discriminate. cbn [rbind] in Hf.
  destruct (enc v) as [j'| |] eqn:Hv; try discriminate. cbn [rbind] in Hf.
  injection Hf as <- <-. exists z, v. repeat split; auto. eapply int_str_ok; eauto.
Qed.

Lemma the_obj_lookup (P : dictobj -> Prop) (δ : gmap loc dictobj) l :
  P empty_dict -> (forall o, δ !! l = Some o -> P o) -> P (the_obj δ l).
Proof.
  intros He Hs. unfold the_obj. destruct (δ !! l) as [o|]; [apply Hs; reflexivity|exact He].
Qed.

Lemma encode_modelled rt n δ v : known_keys δ -> encode rt n δ v <> Unmodelled.
Proof.
  intros Hδ. revert v. induction n as [|n IH]; intros v; destruct v; cbn [encode];
    try discriminate; try apply int_str_modelled;
    try (destruct b; discriminate); try (destruct (o_json o); discriminate).
  assert (Ho : d_other (the_obj δ l) = false).
  { apply (the_obj_lookup (fun o => d_other o = false)); [reflexivity|]. intros o. apply Hδ. }
  unfold encode_obj. rewrite Ho.
  destruct (bool_decide (d_int (the_obj δ l) = ∅)).
  - unfold encode_dict.
    destruct (rmapM _ _) as [kjs|e|] eqn:E; cbn; try discriminate.
    exfalso. revert E. generalize (sorted_items (d_str (the_obj δ l))). intros l0.
    induction l0 as [|[k x] l0 IHl]; cbn [rmapM]; [discriminate|].
    cbn [fst snd]. specialize (IH x). destruct (encode rt n δ x); cbn; try congruence.
    destruct (rmapM _ l0); cbn; try discriminate. auto.
  - destruct (bool_decide (d_str (the_obj δ l) = ∅)); [|discriminate].
    unfold encode_int_dict.
    destruct (rmapM _ _) as [kjs|e|] eqn:E; cbn; try discriminate.
    exfalso. revert E. generalize (sorted_int_items (d_int (the_obj δ l))). intros l0.
    induction l0 as [|[k x] l0 IHl]; cbn [rmapM]; [discriminate|].
    cbn [fst snd]. pose proof (int_str_modelled rt k) as Hk.
    destruct (int_str rt k); cbn; try congruence.
    specialize (IH x). destruct (encode rt n δ x); cbn; try congruence.
    destruct (rmapM _ l0); cbn; try discriminate. auto.
Qed.

Lemma encode_errors rt n δ v e :
  encode rt n δ v = Raise e -> e = TypeError \/ e = ValueError.
Proof.
  revert v e. induction n as [|n IH]; intros v e; destruct v; cbn [encode]; try discriminate;
    try (intros ->%int_str_errors; auto);
    try (destruct b; discriminate); try (destruct (o_json o); [discriminate|intros [= <-]; auto]).
  - intros [= <-]; auto.
  - unfold encode_obj. destruct (d_other (the_obj δ l)); [discriminate|].
    destruct (bool_decide (d_int (the_obj δ l) = ∅)).
    + unfold encode_dict.
      generalize (sorted_items (d_str (the_obj δ l))). intros l0.
      destruct (rmapM _ l0) as [kjs|e'|] eqn:E; cbn; try discriminate.
      intros [= ->]. revert E.
      induction l0 as [|[k x] l0 IHl]; cbn [rmapM]; [discriminate|].
      cbn [fst snd]. destruct (encode rt n δ x) eqn:Ex; cbn.
      * destruct (rmapM _ l0); cbn; try discriminate. { intros [= <-]. auto. }
      * intros [= <-]. eapply IH; eauto.
      * discriminate.
    + destruct (bool_decide (d_str (the_obj δ l) = ∅)); [|intros [= <-]; auto].
      unfold encode_int_dict.
      generalize (sorted_int_items (d_int (the_obj δ l))). intros l0.
      destruct (rmapM _ l0) as [kjs|e'|] eqn:E; cbn; try discriminate.
      intros [= ->]. revert E.
      induction l0 as [|[k x] l0 IHl]; cbn [rmapM]; [discriminate|].
      cbn [fst snd]. destruct (int_str rt k) eqn:Ek; cbn.
      * destruct (encode rt n δ x) eqn:Ex; cbn.
        -- destruct (rmapM _ l0); cbn; try discriminate. { intros [= <-]. auto. }
        -- intros [= <-]. eapply IH; eauto.
        -- discriminate.
      * intros [= <-]. right. eapply int_str_errors; eauto.
      * discriminate.
Qed.

Lemma encode_plain rt n δ v : plain_json rt v = true -> exists j, encode rt n δ v = Ok j.
Proof.
  destruct v, n; cbn; try destruct b; try discriminate; eauto;
    try (unfold int_str; intros ->; eauto);
    intros H%bool_decide_eq_true; destruct H as [j ->]; eauto.
Qed.

Lemma members_encode_plain rt δ (d : pydict) :
  (forall k v, d !! k = Some v -> plain_json rt v = true) -> members_encode rt δ d.
Proof. intros H k v Hk. apply encode_plain. eauto. Qed.

Lemma json_char_one_line c : one_line (json_char c) = true.
Proof. destruct c as [[] [] [] [] [] [] [] []]; reflexivity. Qed.

Lemma json_escape_one_line s : one_line (json_escape s) = true.
Proof.
  induction s as [|c s IH]; [reflexivity|].
  cbn [json_escape]. rewrite one_line_app, json_char_one_line, IH. reflexivity.
Qed.

Lemma json_string_one_line s : one_line (json_string s) = true.
Proof.
  unfold json_string. rewrite !one_line_app, json_escape_one_line. reflexivity.
Qed.

Lemma uint_one_line d : one_line (NilEmpty.string_of_uint d) = true.
Proof. induction d; cbn; auto. Qed.

Lemma uint0_one_line d : one_line (NilZero.string_of_uint d) = true.
Proof. destruct d; try reflexivity; apply (uint_one_line (_ d)) || apply uint_one_line. Qed.

Lemma int_one_line i : one_line (NilZero.string_of_int i) = true.
Proof. destruct i; cbn [NilZero.string_of_int one_line]; rewrite ?uint0_one_line; reflexivity. Qed.

Lemma decimal_text_one_line d : one_line (decimal_text d) = true.
Proof.
  destruct d as [i f|i f e]; unfold decimal_text;
    rewrite ?one_line_app, ?int_one_line, ?uint0_one_line; cbn [andb]; try reflexivity.
  assert (H1 : one_line match f with Nil => "" | _ => "." ++ NilEmpty.string_of_uint f end = true).
  { destruct f; try reflexivity; rewrite one_line_app; apply (uint_one_line (_ f)). }
  assert (H2 : one_line match e with
                        | Pos u => "+" ++ NilZero.string_of_uint u
                        | Neg u => "-" ++ NilZero.string_of_uint u
                        end = true).
  { destruct e; rewrite one_line_app, uint0_one_line; reflexivity. }
  rewrite H1, H2. reflexivity.
Qed.

Lemma str_join_one_line sep l :
  one_line sep = true -> Forall (fun s => one_line s = true) l ->
  one_line (str_join sep l) = true.
Proof.
  intros Hs. induction 1 as [|x l Hx Hl IH]; [reflexivity|].
  cbn [str_join]. destruct l; [exact Hx|].
  rewrite !one_line_app, Hx, Hs, IH. reflexivity.
Qed.

Lemma json_object_one_line kjs :
  Forall (fun kj => one_line (snd kj) = true) kjs -> one_line (json_object kjs) = true.
Proof.
  intros H. unfold json_object. rewrite !one_line_app. cbn [one_line andb].
  rewrite str_join_one_line; [reflexivity..|].
  apply Forall_map. eapply Forall_impl; [exact H|].
  intros [k j] Hj. unfold json_member. cbn [fst snd] in *.
  rewrite !one_line_app, json_string_one_line, Hj. reflexivity.
Qed.

Lemma encode_dict_one_line enc (d : pydict) out :
  (forall k v j, d !! k = Some v -> enc v = Ok j -> one_line j = true) ->
  encode_dict enc d = Ok out -> one_line out = true.
Proof.
  intros H (kjs & -> & _ & Hk)%encode_dict_ok.
  apply json_object_one_line, Forall_forall. intros [k j] Hin.
  destruct (Hk k j) as (v & Hv & He); [exact Hin|]. eapply H; eauto.
Qed.

Lemma the_obj_compact δ l : compact_store δ -> compact_obj (the_obj δ l).
Proof.
  intros Hδ. apply (the_obj_lookup compact_obj); [|intros o; apply Hδ].
  split; intros k v H; cbn in H; rewrite lookup_empty in H; discriminate.
Qed.

Lemma encode_obj_one_line rt enc (o : dictobj) out :
  (forall k v j, d_str o !! k = Some v -> enc v = Ok j -> one_line j = true) ->
  (forall z v j, d_int o !! z = Some v -> enc v = Ok j -> one_line j = true) ->
  encode_obj rt enc o = Ok out -> one_line out = true.
Proof.
  intros Hs Hi. unfold encode_obj. destruct (d_other o); [discriminate|].
  destruct (bool_decide (d_int o = ∅)); [apply encode_dict_one_line, Hs|].
  destruct (bool_decide (d_str o = ∅)); [|discriminate].
  intros (kjs & -> & Hk)%encode_int_dict_ok.
  apply json_object_one_line, Forall_forall. intros [k j] Hin.
  destruct (Hk k j Hin) as (z & v & Hv & _ & He). cbn [snd]. eapply Hi; eauto.
Qed.

Lemma encode_one_line rt n δ v j :
  compact_store δ -> compact v -> encode rt n δ v = Ok j -> one_line j = true.
Proof.
  intros Hδ. revert v j.
  assert (Hatom : forall m v j, (forall l, v <> VDict l) -> compact v ->
                    encode rt m δ v = Ok j -> one_line j = true).
  { intros m v j Hv Hc. destruct v, m; cbn [encode]; try (intros [= <-]);
      try reflexivity; try (destruct b; intros [= <-]; reflexivity);
      try apply json_string_one_line; try (exfalso; eapply Hv; reflexivity).
    - intros ->%int_str_ok. unfold int_text. apply int_one_line.
    - intros ->%int_str_ok. unfold int_text. apply int_one_line.
    - destruct f as [|[]|d]; try reflexivity. apply decimal_text_one_line.
    - destruct f as [|[]|d]; try reflexivity. apply decimal_text_one_line.
    - cbn in Hc. destruct (o_json o); [intros [= <-]; exact Hc|discriminate].
    - cbn in Hc. destruct (o_json o); [intros [= <-]; exact Hc|discriminate]. }
  induction n as [|n IH]; intros v j Hc.
  - destruct v; try (apply Hatom; [discriminate|exact Hc]). discriminate.
  - destruct v; try (apply Hatom; [discriminate|exact Hc]).
    cbn [encode]. destruct (the_obj_compact δ l Hδ) as [Hs Hi].
    apply encode_obj_one_line.
    + intros k v j' Hk. apply IH. eapply Hs; eauto.
    + intros z v j' Hk. apply IH. eapply Hi; eauto.
Qed.

Lemma lookup_pick_present keys (a : attrs) k :
  pick_present keys a !! k = if decide (k ∈ keys) then a !! k else None.
Proof.
  induction keys as [|x keys IH].
  - cbn. rewrite lookup_empty. case_decide as H; [inversion H|reflexivity].
  - change (pick_present (x :: keys) a) with
      (match a !! x with
       | Some v => <[x := v]> (pick_present keys a)
       | None => pick_present keys a
       end).
    destruct (decide (k = x)) as [->|Hne].
    + rewrite decide_True by (apply elem_of_cons; auto).
      destruct (a !! x) eqn:E; [by rewrite lookup_insert_eq|].
      rewrite IH. by case_decide.
    + assert (Hk : match a !! x with
                   | Some v => <[x := v]> (pick_present keys a)
                   | None => pick_present keys a
                   end !! k = pick_present keys a !! k).
      { destruct (a !! x); [by rewrite lookup_insert_ne|reflexivity]. }
      rewrite Hk, IH. destruct (decide (k ∈ keys)) as [Hin|Hin].
      * rewrite decide_True by (apply elem_of_cons; auto). reflexivity.
      * rewrite decide_False; [reflexivity|].
        intros [?|?]%elem_of_cons; congruence.
Qed.

Lemma picked_values (a : attrs) text k v :
  pick_present KEYS (<["msg" := VStr text]> a) !! k = Some v ->
  k ∈ KEYS /\ ((k = "msg" /\ v = VStr text) \/ (k ≠ "msg" /\ a !! k = Some v)).
Proof.
  rewrite lookup_pick_present. case_decide as Hk; [|discriminate].
  intros H. split; [exact Hk|]. destruct (decide (k = "msg")) as [->|Hne].
  - rewrite lookup_insert_eq in H. left. split; congruence.
  - rewrite lookup_insert_ne in H by congruence. right. auto.
Qed.

(** ** PlainFormatter *)

Section PlainFormatter_facts.
Variable rt : runtime.

Lemma touches_Formatter_format fmt c : touches c (Formatter_format rt fmt c).
Proof.
unfold Formatter_format, store_message, getMessage, formatMessage, append_traces.
touches_tac.
Qed.

Lemma PlainFormatter_format_unfold fmt r σ a msg :
recs σ !! r = Some a -> a !! "msg" = Some msg ->
let c := fresh (dom (recs σ)) in
PlainFormatter_format rt fmt r σ =
Formatter_format rt fmt c
  (Store (<[c := match msg with
                 | VStr s => <["msg" := VStr (str_take 512 (strip_csi s))]> a
                 | _ => a
                 end]> (recs σ)) (dicts σ)).
Proof.
intros Hr Hm c. unfold PlainFormatter_format.
rewrite (bind_ok _ _ _ _ _ (copy_some _ _ _ Hr)). fold c.
erewrite bind_ok; [|apply getattr_some; rewrite the_record_insert; exact Hm].
destruct msg; try reflexivity.
erewrite bind_ok; [|apply setattr_insert]. reflexivity.
Qed.

(** X1: [PlainFormatter.format] leaves the caller's record and every dict
    object as they were: what it assigns, it assigns on the copy. *)
Theorem PlainFormatter_format_frame fmt r σ a :
recs σ !! r = Some a ->
recs (fst (PlainFormatter_format rt fmt r σ)) !! r = Some a /\
dicts (fst (PlainFormatter_format rt fmt r σ)) = dicts σ.
Proof.
intros Hr. unfold PlainFormatter_format. apply touches_after_copy; [exact Hr|].
intros c. repeat first [ apply touches_Formatter_format | touches_step ].
Qed.

(** C9: when the message is not a string, [PlainFormatter.format] leaves
  it as it is: the copy handed to the base formatter has the attributes of
  the record, the message among them, and the result is that of the base
  formatter on it. With a template that holds [%(message)s] between
  literal texts and a record without arguments, exception or stack, the
  output is the literal texts around the text of the message, as [str()]
  gives it, neither stripped nor cut (and the call raises what [str()]
  raises). *)
Theorem PlainFormatter_leaves_other_messages fmt r σ a msg :
recs σ !! r = Some a -> a !! "msg" = Some msg -> is_str msg = false ->
let c := fresh (dom (recs σ)) in
let σc := Store (<[c := a]> (recs σ)) (dicts σ) in
c ≠ r /\ the_record σc c !! "msg" = Some msg /\
PlainFormatter_format rt fmt r σ = Formatter_format rt fmt c σc /\
(forall pre post args ei et si,
   percent_free pre = true -> percent_free post = true ->
   a !! "args" = Some args -> truthy (dicts σ) args = false ->
   a !! "exc_info" = Some ei -> truthy (dicts σ) ei = false ->
   a !! "exc_text" = Some et -> truthy (dicts σ) et = false ->
   a !! "stack_info" = Some si -> truthy (dicts σ) si = false ->
   snd (PlainFormatter_format rt (pre ++ "%(message)s" ++ post) r σ) =
   rmap (fun text => pre ++ text ++ post) (py_str rt (dicts σ) msg)).
Proof.
intros Hr Hm Hs c σc. split; [eapply copy_fresh; eauto|]. split; [|split].
- unfold σc. rewrite the_record_insert. exact Hm.
- rewrite (PlainFormatter_format_unfold fmt r σ a msg Hr Hm).
  destruct msg; try reflexivity. discriminate.
- intros pre post args ei et si Hpre Hpost Hargs Ha Hei He Het Ht Hsi Hst.
  rewrite (PlainFormatter_format_unfold _ r σ a msg Hr Hm).
  destruct msg; try discriminate;
    apply Formatter_format_result with (args := args) (ei := ei) (et := et) (si := si);
    assumption.
Qed.

(** C3, amended: for a message that is a string, on a record without
  arguments, [PlainFormatter.format] replaces the message of the copy by
  the first 512 characters of the stripped text, cutting wherever the cap
  falls, and hands the copy to the base formatter, for which the message
  of the record is that text; the text has at most 512 characters, and for
  a message of 600 characters without an escape sequence it is the first
  512 characters of the message, 512 characters long. With a template that
  holds [%(message)s] between literal texts and a record without exception
  or stack, the output is the literal texts around that text. *)
Theorem PlainFormatter_truncates_message r σ a s args :
recs σ !! r = Some a -> a !! "msg" = Some (VStr s) ->
a !! "args" = Some args -> truthy (dicts σ) args = false ->
let c := fresh (dom (recs σ)) in
let m := str_take 512 (strip_csi s) in
let σc := Store (<[c := <["msg" := VStr m]> a]> (recs σ)) (dicts σ) in
(String.length m <= 512)%nat /\
(has_csi s = false -> String.length s = 600%nat ->
 m = str_take 512 s /\ String.length m = 512%nat) /\
(forall fmt, PlainFormatter_format rt fmt r σ = Formatter_format rt fmt c σc) /\
getMessage rt c σc = (σc, Ok m) /\
(forall pre post ei et si,
   percent_free pre = true -> percent_free post = true ->
   a !! "exc_info" = Some ei -> truthy (dicts σ) ei = false ->
   a !! "exc_text" = Some et -> truthy (dicts σ) et = false ->
   a !! "stack_info" = Some si -> truthy (dicts σ) si = false ->
   snd (PlainFormatter_format rt (pre ++ "%(message)s" ++ post) r σ) =
     Ok (pre ++ m ++ post)).
Proof.
intros Hr Hm Hargs Ha c m σc. split; [|split; [|split; [|split]]].
- unfold m. rewrite length_str_take. lia.
- intros Hno Hlen. unfold m, strip_csi. rewrite sub_csi_none by exact Hno.
  split; [reflexivity|]. rewrite length_str_take, Hlen. reflexivity.
- intros fmt. apply (PlainFormatter_format_unfold fmt r σ a (VStr s) Hr Hm).
- unfold σc. erewrite getMessage_plain with (msg := VStr m) (args := args);
    try reflexivity; try solve_lookup; assumption.
- intros pre post ei et si Hpre Hpost Hei He Het Ht Hsi Hs.
  rewrite (PlainFormatter_format_unfold _ r σ a (VStr s) Hr Hm).
  erewrite Formatter_format_message with (msg := VStr m) (args := args)
    (ei := ei) (et := et) (si := si); try reflexivity; try solve_lookup; assumption.
Qed.

End PlainFormatter_facts.

(** A message of 600 characters without an escape sequence, on a record
    with an argument: the cut is made on the format string, the argument
    is interpolated afterwards, and the message of the output has 517
    characters. *)
Lemma PlainFormatter_cut_precedes_arguments :
  String.length long_template = 600%nat /\ has_csi long_template = false /\
  snd (PlainFormatter_format rt_map "%(message)s" 1%positive long_argument_store) =
    Ok ("root-account" ++ str_repeat 505 "a") /\
  String.length ("root-account" ++ str_repeat 505 "a") = 517%nat.
Proof. repeat split; vm_compute; reflexivity. Qed.

(** X3: text in which the pattern matches nowhere is returned as it is
    by the stripping. *)
Theorem strip_csi_without_escape s : has_csi s = false -> strip_csi s = s.
Proof. apply sub_csi_none. Qed.

(** C2: the output of [PlainFormatter.format] should hold no CSI escape
    sequence. For the message [ESC ESC [ m [ m] the single pass of [re.sub]
    removes the inner [ESC [ m] and leaves [ESC [ m], which the pattern
    matches: the formatted output still holds an escape sequence. *)
Theorem PlainFormatter_keeps_rebuilt_escape :
  has_csi nested_escape = true /\
  snd (PlainFormatter_format rt0 "%(message)s" 1%positive
         (one_record (base_record 20 "INFO" (VStr nested_escape)))) =
    Ok (String ESC "[m") /\
  has_csi (String ESC "[m") = true.
Proof. repeat split; vm_compute; reflexivity. Qed.

(** ** JsonFormatter *)

Section JsonFormatter_facts.
Variable rt : runtime.

Lemma JsonFormatter_format_unfold r σ a msg text0 :
recs σ !! r = Some a -> a !! "msg" = Some msg ->
py_str rt (dicts σ) msg = Ok text0 ->
let c := fresh (dom (recs σ)) in
let text := strip_csi text0 in
JsonFormatter_format rt r σ =
(Store (<[c := <["msg" := VStr text]> a]> (recs σ)) (dicts σ),
 json_dumps_fresh rt (dicts σ) (pick_present KEYS (<["msg" := VStr text]> a))).
Proof.
intros Hr Hm Hs c text. unfold JsonFormatter_format.
rewrite (bind_ok _ _ _ _ _ (copy_some _ _ _ Hr)). fold c.
do 2 run_step. cbn [dicts]. rewrite Hs. do 3 run_step.
rewrite the_record_insert. reflexivity.
Qed.

(** When [str(cr.msg)] raises, the call raises the same, before the
    encoder is reached. *)
Lemma JsonFormatter_format_str_raises r σ a msg e :
recs σ !! r = Some a -> a !! "msg" = Some msg ->
py_str rt (dicts σ) msg = Raise e ->
snd (JsonFormatter_format rt r σ) = Raise e.
Proof.
intros Hr Hm Hs. unfold JsonFormatter_format.
rewrite (bind_ok _ _ _ _ _ (copy_some _ _ _ Hr)).
do 2 run_step. cbn [dicts]. rewrite Hs. reflexivity.
Qed.

(** X2: [JsonFormatter.format] leaves the caller's record and every dict
    object as they were, a message that is a dict included. *)
Theorem JsonFormatter_format_frame r σ a :
recs σ !! r = Some a ->
recs (fst (JsonFormatter_format rt r σ)) !! r = Some a /\
dicts (fst (JsonFormatter_format rt r σ)) = dicts σ.
Proof.
intros Hr. unfold JsonFormatter_format. apply touches_after_copy; [exact Hr|].
intros c. touches_tac.
Qed.

(** C4, amended: for every record on which [str()] of the message
  returns and whose allow-listed fields other than [msg] are
  JSON-serializable, [JsonFormatter.format] coerces the message to text
  and strips the CSI escape sequences whatever its type, and returns a
  single-line JSON object whose keys are the allow-listed fields present
  on the record, in increasing order; the member for [msg] is the stripped
  text. When [str()] of the message raises, the call raises the same. For
  the record with [levelname] "INFO", [msg] "hello" and [lineno] 42 the
  output is the object with these three members, in the order
  [levelname], [lineno], [msg]. *)
Theorem JsonFormatter_format_object r σ a msg :
recs σ !! r = Some a -> a !! "msg" = Some msg ->
(forall text0, py_str rt (dicts σ) msg = Ok text0 ->
   (forall k v, k ∈ KEYS -> k ≠ "msg" -> a !! k = Some v ->
                exists j, json_dumps rt (dicts σ) v = Ok j) ->
   let text := strip_csi text0 in
   exists kjs,
     snd (JsonFormatter_format rt r σ) = Ok (json_object kjs) /\
     Sorted str_le (map fst kjs) /\ NoDup (map fst kjs) /\
     (forall k, k ∈ map fst kjs <-> k ∈ KEYS /\ is_Some (a !! k)) /\
     ("msg", json_string text) ∈ kjs /\
     (forall k j, (k, j) ∈ kjs -> k ≠ "msg" ->
                  exists v, a !! k = Some v /\ json_dumps rt (dicts σ) v = Ok j) /\
     (compact_store (dicts σ) -> compact_dict a -> one_line (json_object kjs) = true)) /\
(forall e, py_str rt (dicts σ) msg = Raise e ->
   snd (JsonFormatter_format rt r σ) = Raise e) /\
snd (JsonFormatter_format rt0 1%positive (one_record json_example)) =
  Ok (json_object [("levelname", json_string "INFO"); ("lineno", "42");
                   ("msg", json_string "hello")]).
Proof.
intros Hr Hm. split; [|split; [|vm_compute; reflexivity]].
2:{ intros e He. apply (JsonFormatter_format_str_raises r σ a msg e Hr Hm He). }
intros text0 Hs Hser text.
rewrite (JsonFormatter_format_unfold r σ a msg text0 Hr Hm Hs). cbn [snd]. fold text.
set (D := pick_present KEYS (<["msg" := VStr text]> a)).
pose proof (picked_values a text) as HD. fold D in HD.
destruct (encode_dict_all_ok (encode rt (S (size (dicts σ))) (dicts σ)) D) as [out Hout].
{ intros k v Hkv. destruct (HD k v Hkv) as [Hk [[-> ->]|[Hne Ha]]].
  - cbn. eauto.
  - apply (Hser k v Hk Hne Ha). }
unfold json_dumps_fresh. rewrite Hout.
destruct (encode_dict_ok _ _ _ Hout) as (kjs & -> & Hkeys & Hmem).
exists kjs. split; [reflexivity|]. rewrite Hkeys.
split; [apply sorted_items_sorted|]. split; [apply sorted_items_NoDup|].
split; [|split; [|split]].
- intros k. rewrite elem_of_sorted_keys. unfold D. rewrite lookup_pick_present.
  case_decide as Hk.
  + destruct (decide (k = "msg")) as [->|Hne].
    * rewrite lookup_insert_eq, Hm. split; [intros _; split; eauto|intros _; eauto].
    * rewrite lookup_insert_ne by congruence. tauto.
  + split; [intros [? ?]; discriminate|tauto].
- assert (Hin : "msg" ∈ map fst kjs).
  { rewrite Hkeys. apply elem_of_sorted_keys. unfold D. rewrite lookup_pick_present.
    rewrite decide_True by (unfold KEYS; repeat constructor).
    rewrite lookup_insert_eq. eauto. }
  change (map fst kjs) with (kjs.*1) in Hin.
  apply list_elem_of_fmap in Hin as ([k j] & Hk & Hin). cbn in Hk. subst k.
  destruct (Hmem _ _ Hin) as (v & Hv & He).
  destruct (HD _ _ Hv) as [_ [[_ ->]|[Hne _]]]; [|congruence].
  cbn in He. injection He as <-. exact Hin.
- intros k j Hin Hne. destruct (Hmem _ _ Hin) as (v & Hv & He).
  destruct (HD _ _ Hv) as [_ [[-> _]|[_ Ha]]]; [congruence|]. eauto.
- intros Hδ Ha. apply json_object_one_line, Forall_forall. intros [k j] Hin.
  destruct (Hmem _ _ Hin) as (v & Hv & He). cbn [snd].
  apply (encode_one_line _ _ _ _ _ Hδ) in He; [exact He|].
  destruct (HD _ _ Hv) as [_ [[_ ->]|[_ Hav]]]; [exact I|]. eapply Ha; eauto.
Qed.

(** C10, amended: for every record on which an allow-listed field other
  than [msg] is present with a value that is not JSON-serializable,
  [JsonFormatter.format] returns no text, and the value is not coerced.
  When [str()] of the message returns and the encoder's answer is known
  for every allow-listed field, the call raises the encoder's error for
  such a field ([TypeError], or [ValueError] for a circular reference or
  an integer with too many digits); when [str()] of the message raises,
  it raises that. *)
Theorem JsonFormatter_format_failure r σ a msg k v :
recs σ !! r = Some a -> a !! "msg" = Some msg ->
k ∈ KEYS -> k ≠ "msg" -> a !! k = Some v ->
(forall j, json_dumps rt (dicts σ) v ≠ Ok j) ->
(forall out, snd (JsonFormatter_format rt r σ) ≠ Ok out) /\
(forall text0, py_str rt (dicts σ) msg = Ok text0 ->
   (forall k' v', k' ∈ KEYS -> a !! k' = Some v' ->
                  json_dumps rt (dicts σ) v' ≠ Unmodelled) ->
   exists k' v' e, k' ∈ KEYS /\ k' ≠ "msg" /\ a !! k' = Some v' /\
     json_dumps rt (dicts σ) v' = Raise e /\ (e = TypeError \/ e = ValueError) /\
     snd (JsonFormatter_format rt r σ) = Raise e) /\
(forall e, py_str rt (dicts σ) msg = Raise e ->
   snd (JsonFormatter_format rt r σ) = Raise e).
Proof.
intros Hr Hm Hk Hne Ha Hv. split; [|split].
- intros out Hout.
  destruct (py_str rt (dicts σ) msg) as [text0|e|] eqn:Hs.
  + rewrite (JsonFormatter_format_unfold r σ a msg text0 Hr Hm Hs) in Hout. cbn [snd] in Hout.
    destruct (encode_dict_members _ _ _ k v Hout) as [j Hj].
    * rewrite lookup_pick_present, decide_True by exact Hk.
      rewrite lookup_insert_ne by congruence. exact Ha.
    * exact (Hv j Hj).
  + rewrite (JsonFormatter_format_str_raises r σ a msg e Hr Hm Hs) in Hout. discriminate.
  + revert Hout. unfold JsonFormatter_format.
    rewrite (bind_ok _ _ _ _ _ (copy_some _ _ _ Hr)).
    do 2 run_step. cbn [dicts]. rewrite Hs. discriminate.
- intros text0 Hs Hmod.
  rewrite (JsonFormatter_format_unfold r σ a msg text0 Hr Hm Hs). cbn [snd].
  set (text := strip_csi _).
  destruct (encode_dict_raise (encode rt (S (size (dicts σ))) (dicts σ))
              (pick_present KEYS (<["msg" := VStr text]> a)) k v)
    as (k' & v' & e & Hk' & He & Hres).
  + intros k0 v0 Hk0. destruct (picked_values a _ k0 v0 Hk0) as [Hin [[_ ->]|[_ Ha0]]].
    * discriminate.
    * apply (Hmod k0 v0 Hin Ha0).
  + rewrite lookup_pick_present, decide_True by exact Hk.
    rewrite lookup_insert_ne by congruence. exact Ha.
  + exact Hv.
  + rewrite lookup_pick_present in Hk'. case_decide as Hin; [|discriminate].
    destruct (decide (k' = "msg")) as [->|Hne'].
    { rewrite lookup_insert_eq in Hk'. injection Hk' as <-. discriminate. }
    rewrite lookup_insert_ne in Hk' by congruence.
    exists k', v', e. repeat split; auto. eapply encode_errors; eauto.
- intros e He. apply (JsonFormatter_format_str_raises r σ a msg e Hr Hm He).
Qed.

End JsonFormatter_facts.

(** A record whose [log_id] is a [uuid.UUID] object: the encoder raises
    [TypeError]. *)
Lemma JsonFormatter_format_raises_on_object :
  snd (JsonFormatter_format rt0 1%positive
         (one_record (<["log_id" := a_uuid]> json_example))) = Raise TypeError.
Proof. vm_compute. reflexivity. Qed.

(** A record whose message is an object whose [__str__] raises, and one
    whose message is an integer of 4301 digits: [str(cr.msg)] raises and
    so does the call, the other fields being serializable. *)
Lemma JsonFormatter_format_raises_on_message :
  snd (JsonFormatter_format rt0 1%positive
         (one_record (<["msg" := a_broken]> json_example))) =
    Raise (OtherError "RuntimeError") /\
  snd (JsonFormatter_format rt0 1%positive
         (one_record (<["msg" := VInt (10 ^ 4300)]> json_example))) = Raise ValueError.
Proof. split; vm_compute; reflexivity. Qed.

(** A record whose message is an exception object, which the encoder
    rejects: the message is coerced to its text and the call returns. *)
Lemma JsonFormatter_format_coerces_message :
  let a := <["msg" := an_exception]> json_example in
  "msg" ∈ KEYS /\ a !! "msg" = Some an_exception /\
  json_dumps rt0 ∅ an_exception = Raise TypeError /\
  snd (JsonFormatter_format rt0 1%positive (one_record a)) =
    Ok (json_object [("levelname", json_string "INFO"); ("lineno", "42");
                     ("msg", json_string "boom")]).
Proof.
  cbv zeta. split; [unfold KEYS; repeat constructor|].
  repeat split; vm_compute; reflexivity.
Qed.

(** ** ProfileFormatter *)

Lemma merged_keys (d : pydict) vc vm vp vt memory k :
  is_Some (merged d vc vm vp vt memory !! k) <->
  is_Some (d !! k) \/ k ∈ ["created"; "module"; "process"; "thread"; "memory"].
Proof.
  unfold merged. rewrite !lookup_insert_is_Some'.
  rewrite !elem_of_cons, elem_of_nil.
  split; intros H; repeat (destruct H as [H|H]); try subst k; try contradiction;
    repeat first [ assumption | reflexivity | left; solve [ assumption | reflexivity ] | right ].
Qed.

Section ProfileFormatter_facts.
Variable rt : runtime.

Lemma ProfileFormatter_format_unfold memory r σ a l vc vm vp vt :
recs σ !! r = Some a -> a !! "msg" = Some (VDict l) ->
a !! "created" = Some vc -> a !! "module" = Some vm ->
a !! "process" = Some vp -> a !! "thread" = Some vt ->
let c := fresh (dom (recs σ)) in
let o := the_obj (dicts σ) l in
let δ' := <[l := set_items o (merged (the_dict (dicts σ) l) vc vm vp vt memory)]> (dicts σ) in
ProfileFormatter_format rt memory r σ =
(Store (<[c := a]> (recs σ)) δ', json_dumps rt δ' (VDict l)).
Proof.
intros Hr Hm Hc Hmo Hp Ht c o δ'. unfold ProfileFormatter_format.
rewrite (bind_ok _ _ _ _ _ (copy_some _ _ _ Hr)). fold c.
run_step. cbv beta iota.
erewrite bind_ok
  by (apply (pick_all_insert _ _ _ a _ [vc; vm; vp; vt]); repeat constructor; assumption).
cbn [zip zip_with].
unfold dict_setitem, dict_update, bind, gets, liftr, update_items.
cbn [recs dicts foldl fst snd].
rewrite !the_obj_insert, insert_insert_eq. reflexivity.
Qed.

Lemma ProfileFormatter_format_in_place memory r σ a l vc vm vp vt :
recs σ !! r = Some a -> a !! "msg" = Some (VDict l) ->
a !! "created" = Some vc -> a !! "module" = Some vm ->
a !! "process" = Some vp -> a !! "thread" = Some vt ->
let σ' := fst (ProfileFormatter_format rt memory r σ) in
recs σ' !! r = Some a /\
dicts σ' !! l = Some (set_items (the_obj (dicts σ) l)
                        (merged (the_dict (dicts σ) l) vc vm vp vt memory)).
Proof.
intros Hr Hm Hc Hmo Hp Ht.
rewrite (ProfileFormatter_format_unfold memory r σ a l vc vm vp vt) by assumption.
cbn [fst recs dicts]. split; [|apply lookup_insert_eq].
rewrite lookup_insert_ne by (eapply copy_fresh; eauto). exact Hr.
Qed.

(** C5: for every record whose message is not a dict,
    [ProfileFormatter.format] returns the empty string and raises nothing;
    the caller's record and the dict objects are as before. *)
Theorem ProfileFormatter_format_skips memory r σ a msg :
recs σ !! r = Some a -> a !! "msg" = Some msg -> is_dict msg = false ->
snd (ProfileFormatter_format rt memory r σ) = Ok "" /\
dicts (fst (ProfileFormatter_format rt memory r σ)) = dicts σ /\
recs (fst (ProfileFormatter_format rt memory r σ)) !! r = Some a.
Proof.
intros Hr Hm Hd. unfold ProfileFormatter_format.
rewrite (bind_ok _ _ _ _ _ (copy_some _ _ _ Hr)).
run_step. destruct msg; try discriminate; cbn [ret fst snd recs dicts];
  (split; [reflexivity|split; [reflexivity|]]);
  rewrite lookup_insert_ne by (eapply copy_fresh; eauto); exact Hr.
Qed.

Lemma known_keys_insert δ l o :
known_keys δ -> d_other o = false -> known_keys (<[l := o]> δ).
Proof.
intros Hδ Ho l' o' [[_ <-]|[_ H]]%lookup_insert_Some; [exact Ho|eapply Hδ; eauto].
Qed.

(** C6, amended: for every record whose message is a dict with string
    keys only, [ProfileFormatter.format] returns what the JSON encoder
    makes of the dict merged with [created], [module], [process], [thread]
    and [memory]. When every member of the merged dict is
    JSON-serializable the result is a single-line JSON object with its keys
    in increasing order, the keys being those of the message and the five
    added ones; when some member is not, the encoder's error is raised.
    When the dict has an integer key, beside the string keys merged in,
    the encoder cannot sort the keys and raises [TypeError]: the call
    returns for dicts with string keys only. For the message
    [{"event": "x"}] the output has the keys [created], [event], [memory],
    [module], [process], [thread]; for the message [{1: "a"}] the call
    raises [TypeError]. *)
Theorem ProfileFormatter_format_mapping memory r σ a l vc vm vp vt :
recs σ !! r = Some a -> a !! "msg" = Some (VDict l) ->
a !! "created" = Some vc -> a !! "module" = Some vm ->
a !! "process" = Some vp -> a !! "thread" = Some vt ->
let o := the_obj (dicts σ) l in
let d := the_dict (dicts σ) l in
let d' := merged d vc vm vp vt memory in
let δ' := <[l := set_items o d']> (dicts σ) in
let out := snd (ProfileFormatter_format rt memory r σ) in
(str_keyed o -> members_encode rt δ' d' -> exists s, out = Ok s) /\
(str_keyed o -> known_keys (dicts σ) ->
 forall k v, d' !! k = Some v -> (forall j, encode rt (size δ') δ' v ≠ Ok j) ->
             exists e, out = Raise e /\ (e = TypeError \/ e = ValueError)) /\
(d_other o = false -> d_int o ≠ ∅ -> out = Raise TypeError) /\
(forall s, out = Ok s ->
   str_keyed o /\
   exists kjs, s = json_object kjs /\
     Sorted str_le (map fst kjs) /\ NoDup (map fst kjs) /\
     (forall k, k ∈ map fst kjs <->
                is_Some (d !! k) \/
                k ∈ ["created"; "module"; "process"; "thread"; "memory"]) /\
     (forall k j, (k, j) ∈ kjs -> exists v, d' !! k = Some v /\ encode rt (size δ') δ' v = Ok j) /\
     (compact_store δ' -> one_line s = true)) /\
snd (ProfileFormatter_format rt0 float_1024 1%positive profile_store) =
  Ok (json_object [("created", "1700.5"); ("event", json_string "x");
                   ("memory", "1024.0"); ("module", json_string "run");
                   ("process", "99"); ("thread", "7")]) /\
snd (ProfileFormatter_format rt0 float_1024 1%positive int_key_profile_store) =
  Raise TypeError.
Proof.
intros Hr Hm Hc Hmo Hp Ht o d d' δ' out.
assert (Hobj : out = encode_obj rt (encode rt (size δ') δ') (set_items o d')).
{ unfold out. rewrite (ProfileFormatter_format_unfold memory r σ a l vc vm vp vt) by assumption.
  cbn [snd]. unfold json_dumps. cbn [encode]. fold o d d' δ'.
  unfold δ'. rewrite the_obj_insert. reflexivity. }
assert (Hne : d' ≠ ∅).
{ intros E. assert (H : d' !! "memory" = Some memory) by apply lookup_insert_eq.
  rewrite E, lookup_empty in H. discriminate. }
assert (Hstr : str_keyed o -> out = encode_dict (encode rt (size δ') δ') d').
{ intros [Hi Ho]. rewrite Hobj. unfold encode_obj. cbn [set_items d_other d_int d_str].
  rewrite Ho, Hi. rewrite bool_decide_eq_true_2 by reflexivity. reflexivity. }
split; [|split; [|split; [|split; [|split]]]].
- intros Hk Hall. rewrite (Hstr Hk). apply encode_dict_all_ok. exact Hall.
- intros Hk Hδ k v Hkv Hv. rewrite (Hstr Hk).
  destruct (encode_dict_raise (encode rt (size δ') δ') d' k v) as (k' & v' & e & _ & He & ->);
    auto.
  { intros k0 v0 _. apply encode_modelled. apply known_keys_insert; [exact Hδ|]. apply Hk. }
  exists e. split; [reflexivity|]. eapply encode_errors; eauto.
- intros Ho Hi. rewrite Hobj. unfold encode_obj. cbn [set_items d_other d_int d_str].
  rewrite Ho. rewrite bool_decide_eq_false_2 by exact Hi.
  rewrite bool_decide_eq_false_2 by exact Hne. reflexivity.
- intros s Hs.
  assert (Hk : str_keyed o).
  { rewrite Hobj in Hs. unfold encode_obj in Hs. cbn [set_items d_other d_int d_str] in Hs.
    destruct (d_other o) eqn:Ho; [discriminate|].
    destruct (decide (d_int o = ∅)) as [Hi|Hi]; [split; assumption|].
    rewrite bool_decide_eq_false_2 in Hs by exact Hi.
    rewrite bool_decide_eq_false_2 in Hs by exact Hne. discriminate. }
  split; [exact Hk|]. rewrite (Hstr Hk) in Hs.
  destruct (encode_dict_ok _ _ _ Hs) as (kjs & -> & Hkeys & Hmem).
  exists kjs. split; [reflexivity|]. rewrite Hkeys.
  split; [apply sorted_items_sorted|]. split; [apply sorted_items_NoDup|].
  split; [|split].
  + intros k. rewrite elem_of_sorted_keys. apply merged_keys.
  + exact Hmem.
  + intros Hδ. apply json_object_one_line, Forall_forall. intros [k j] Hin.
    destruct (Hmem _ _ Hin) as (v & Hv & He). cbn [snd].
    apply (encode_one_line _ _ _ _ _ Hδ) in He; [exact He|].
    destruct (Hδ l (set_items o d') (lookup_insert_eq _ _ _)) as [Hcd _].
    apply (Hcd k v Hv).
- vm_compute. reflexivity.
- vm_compute. reflexivity.
Qed.

End ProfileFormatter_facts.

(** A message dict holding an exception object: the encoder raises
    [TypeError]. *)
Lemma ProfileFormatter_format_raises_on_object :
  the_record object_profile_store 1%positive !! "msg" = Some (VDict 5%positive) /\
  snd (ProfileFormatter_format rt0 float_1024 1%positive object_profile_store) = Raise TypeError.
Proof. split; vm_compute; reflexivity. Qed.

(** C1: no formatter should mutate the caller's record, the object its
    message refers to included. [ProfileFormatter.format] copies the record
    and then updates the message dict in place; the copy shares that dict
    with the caller's record. For the record whose message is
    [{"event": "x"}], the caller's record still refers to the same dict
    after the call and that dict now holds six keys. *)
Theorem ProfileFormatter_updates_caller_mapping :
  let σ' := fst (ProfileFormatter_format rt0 float_1024 1%positive profile_store) in
  the_record profile_store 1%positive !! "msg" = Some (VDict 5%positive) /\
  dicts profile_store !! 5%positive = Some (dict_of {[ "event" := VStr "x" ]}) /\
  the_record σ' 1%positive !! "msg" = Some (VDict 5%positive) /\
  dicts σ' !! 5%positive =
    Some (dict_of (merged {[ "event" := VStr "x" ]} float_1700_5 (VStr "run") (VInt 99)
                     (VInt 7) float_1024)) /\
  the_dict (dicts profile_store) 5%positive !! "memory" = None /\
  the_dict (dicts σ') 5%positive !! "memory" = Some float_1024.
Proof. cbv zeta. repeat split; reflexivity. Qed.

(** ** ColorFormatter *)

Section ColorFormatter_facts.
Variable rt : runtime.
Variable pal : palette.
Variable level_code : LogVerbosity -> Z.

Lemma formatters_get_unmapped fmt z :
(forall k, level_code k ≠ z) ->
formatters_get level_code (cf_formatters (ColorFormatter_init pal fmt)) (VInt z) = Ok None.
Proof.
intros H. cbn [formatters_get ColorFormatter_init cf_formatters levels map List.find fst level_eq].
rewrite !(proj2 (Z.eqb_neq _ _)) by apply H. reflexivity.
Qed.

Lemma formatters_get_mapped fmt k :
(forall k1 k2, level_code k1 = level_code k2 -> k1 = k2) ->
formatters_get level_code (cf_formatters (ColorFormatter_init pal fmt)) (VInt (level_code k)) =
Ok (Some (colored pal fmt (MAPPING k))).
Proof.
intros Hinj.
assert (Hne : forall k1 k2, k1 ≠ k2 -> (level_code k1 =? level_code k2) = false).
{ intros k1 k2 Hk. apply Z.eqb_neq. intros E. apply Hk, Hinj, E. }
destruct k;
  cbn [formatters_get ColorFormatter_init cf_formatters levels map List.find fst snd level_eq];
  rewrite ?Hne by discriminate; rewrite Z.eqb_refl; reflexivity.
Qed.

(** C8: for every record whose level number is none of the six mapped
  ones, [formatters.get] gives [None] and [ColorFormatter.format] raises
  [AttributeError]; nothing is formatted and the store is unchanged. *)
Theorem ColorFormatter_format_unmapped fmt r σ a z :
recs σ !! r = Some a -> a !! "levelno" = Some (VInt z) ->
(forall k, level_code k ≠ z) ->
ColorFormatter_format rt level_code (ColorFormatter_init pal fmt) r σ =
(σ, Raise AttributeError).
Proof.
intros Hr Hl Hz. unfold ColorFormatter_format.
erewrite bind_ok by (apply getattr_some; rewrite (the_record_some _ _ _ Hr); exact Hl).
unfold liftr at 1. erewrite bind_ok by (rewrite formatters_get_unmapped by exact Hz; reflexivity).
reflexivity.
Qed.

(** C7: [ColorFormatter.__init__] builds, for each of the six levels, a
  formatter whose template is the template wrapped in the ANSI codes of
  the level's style. For a record at level [k], [format] is the base
  formatter with that wrapped template; whenever substituting the fields
  in the template gives [body], substituting them in the wrapped template
  gives [body] between the codes; and for a template with [%(message)s]
  between literal texts and a record without arguments, exception or
  stack, the output is the codes around the literal texts and the text of
  the message (and the call raises what [str()] of the message
  raises). *)
Theorem ColorFormatter_format_styled fmt r σ a k :
(forall k', percent_free (ansi_on pal (MAPPING k')) = true /\
            percent_free (ansi_off pal (MAPPING k')) = true) ->
(forall k1 k2, level_code k1 = level_code k2 -> k1 = k2) ->
recs σ !! r = Some a -> a !! "levelno" = Some (VInt (level_code k)) ->
let on := ansi_on pal (MAPPING k) in
let off := ansi_off pal (MAPPING k) in
let self := ColorFormatter_init pal fmt in
cf_formatters self =
  map (fun k' => (k', ansi_on pal (MAPPING k') ++ fmt ++ ansi_off pal (MAPPING k'))) levels /\
ColorFormatter_format rt level_code self r σ = Formatter_format rt (on ++ fmt ++ off) r σ /\
(forall σ' body,
   snd (formatMessage rt fmt r σ') = Ok body ->
   snd (formatMessage rt (on ++ fmt ++ off) r σ') = Ok (on ++ body ++ off)) /\
(forall pre post msg args ei et si,
   fmt = pre ++ "%(message)s" ++ post ->
   percent_free pre = true -> percent_free post = true ->
   a !! "msg" = Some msg ->
   a !! "args" = Some args -> truthy (dicts σ) args = false ->
   a !! "exc_info" = Some ei -> truthy (dicts σ) ei = false ->
   a !! "exc_text" = Some et -> truthy (dicts σ) et = false ->
   a !! "stack_info" = Some si -> truthy (dicts σ) si = false ->
   snd (ColorFormatter_format rt level_code self r σ) =
     rmap (fun text => on ++ (pre ++ text ++ post) ++ off) (py_str rt (dicts σ) msg)).
Proof.
intros Hfree Hinj Hr Hl on off self.
destruct (Hfree k) as [Hon Hoff]. fold on off in Hon, Hoff.
assert (Hfmt : ColorFormatter_format rt level_code self r σ =
               Formatter_format rt (on ++ fmt ++ off) r σ).
{ unfold ColorFormatter_format.
  erewrite bind_ok by (apply getattr_some; rewrite (the_record_some _ _ _ Hr); exact Hl).
  unfold liftr at 1.
  erewrite bind_ok by (unfold self; rewrite formatters_get_mapped by exact Hinj; reflexivity).
  reflexivity. }
split; [reflexivity|]. split; [exact Hfmt|]. split.
- intros σ' body. unfold formatMessage, bind, gets, liftr. cbn [fst snd].
  destruct (percent_format rt (dicts σ') (the_record σ' r) fmt) as [b|e|] eqn:E;
    [|destruct e; discriminate|discriminate].
  intros [= ->]. rewrite (percent_format_wrapped _ _ _ on off fmt body Hon Hoff E).
  reflexivity.
- intros pre post msg args ei et si -> Hpre Hpost Hmsg Hargs Ha Hei He Het Ht Hsi Hs.
  rewrite Hfmt. rewrite (store_insert_id σ r a Hr) at 1.
  replace (on ++ (pre ++ "%(message)s" ++ post) ++ off)
    with ((on ++ pre) ++ "%(message)s" ++ (post ++ off))
    by (rewrite !str_app_assoc; reflexivity).
  rewrite Formatter_format_result with (msg := msg) (args := args)
    (ei := ei) (et := et) (si := si); auto using percent_free_app.
  destruct (py_str rt (dicts σ) msg); cbn; rewrite ?str_app_assoc; reflexivity.
Qed.

End ColorFormatter_facts.

(** ** Stripping and cutting *)

Lemma length_sub_csi k s : (String.length (sub_csi k s) <= String.length s)%nat.
Proof.
  revert k. induction s as [|c t IH]; intros k; [simpl; lia|].
  cbn [sub_csi String.length]. destruct k as [|k].
  - destruct (csi_at (String c t)) as [n|].
    + specialize (IH (Nat.pred n)). lia.
    + cbn [String.length]. specialize (IH 0%nat). lia.
  - specialize (IH k). lia.
Qed.

Lemma str_prefix_take n s : str_prefix (str_take n s) s = true.
Proof.
  revert s. induction n as [|n IH]; intros [|c t]; cbn [str_take str_prefix]; auto.
  rewrite Ascii.eqb_refl. apply IH.
Qed.

Lemma str_take_all n s : (String.length s <= n)%nat -> str_take n s = s.
Proof.
  revert s. induction n as [|n IH]; intros [|c t]; cbn [str_take String.length]; intros H;
    try reflexivity; try lia.
  rewrite IH by lia. reflexivity.
Qed.

Lemma esc_free_cons c t :
  esc_free (String c t) = true -> Ascii.eqb c ESC = false /\ esc_free t = true.
Proof.
  cbn [esc_free]. destruct (Ascii.eqb c ESC); simpl; auto. discriminate.
Qed.

Lemma csi_at_not_esc c t : Ascii.eqb c ESC = false -> csi_at (String c t) = None.
Proof. intros H. unfold csi_at. destruct t; [reflexivity|]. rewrite H. reflexivity. Qed.

Lemma has_csi_esc_free s : esc_free s = true -> has_csi s = false.
Proof.
  induction s as [|c t IH]; [reflexivity|].
  intros [Hc Ht]%esc_free_cons. cbn [has_csi]. rewrite csi_at_not_esc by exact Hc. auto.
Qed.

Lemma esc_free_app a b : esc_free (a ++ b) = esc_free a && esc_free b.
Proof.
  induction a as [|c a IH]; [reflexivity|].
  rewrite app_cons. cbn [esc_free]. rewrite IH, andb_assoc. reflexivity.
Qed.

Lemma esc_free_take n s : esc_free s = true -> esc_free (str_take n s) = true.
Proof.
  revert s. induction n as [|n IH]; intros [|c t]; cbn [str_take]; auto.
  intros [Hc Ht]%esc_free_cons. cbn [esc_free]. rewrite Hc. simpl. auto.
Qed.

Lemma sub_csi_plain p q :
  esc_free p = true -> sub_csi 0 (p ++ q) = p ++ sub_csi 0 q.
Proof.
  induction p as [|c p IH]; [reflexivity|].
  intros [Hc Hp]%esc_free_cons. rewrite !app_cons. cbn [sub_csi].
  rewrite csi_at_not_esc by exact Hc. rewrite IH by exact Hp. reflexivity.
Qed.

Lemma sub_csi_skip x q : sub_csi (String.length x) (x ++ q) = sub_csi 0 q.
Proof.
  induction x as [|c x IH]; [reflexivity|].
  rewrite app_cons. cbn [String.length sub_csi]. exact IH.
Qed.

Lemma csi_tail_params ps f rest :
  csi_params ps = true -> is_final f = true ->
  csi_tail (ps ++ String f rest) = Some (S (String.length ps)).
Proof.
  intros Hps Hf. induction ps as [|c ps IH].
  - rewrite app_nil_l. cbn [csi_tail]. rewrite Hf. reflexivity.
  - cbn [csi_params] in Hps. apply andb_prop in Hps as [Hc Hps].
    apply andb_prop in Hc as [Hc1 Hc2].
    rewrite app_cons. cbn [csi_tail].
    apply negb_true_iff in Hc1, Hc2. rewrite Hc1, Hc2, IH by exact Hps. reflexivity.
Qed.

Lemma csi_at_sequence u :
  csi_at (String ESC (String "[" u)) = (fun n => S (S n)) <$> csi_tail u.
Proof. reflexivity. Qed.

Lemma sub_csi_match c t n :
  csi_at (String c t) = Some (S n) -> sub_csi 0 (String c t) = sub_csi n t.
Proof. intros H. cbn [sub_csi]. rewrite H. reflexivity. Qed.

Lemma sub_csi_drop k c t : sub_csi (S k) (String c t) = sub_csi k t.
Proof. reflexivity. Qed.

Lemma sub_csi_sequence q rest :
  seq_ok q = true -> sub_csi 0 (seq_text q rest) = sub_csi 0 rest.
Proof.
  intros Hq. apply andb_prop in Hq as [Hps Hf]. unfold seq_text.
  rewrite sub_csi_match with (n := S (S (String.length (seq_params q)))).
  2:{ rewrite csi_at_sequence, (csi_tail_params _ _ _ Hps Hf). reflexivity. }
  rewrite sub_csi_drop.
  change (String (seq_final q) rest) with (String (seq_final q) "" ++ rest).
  rewrite <- str_app_assoc.
  replace (S (String.length (seq_params q)))
    with (String.length (seq_params q ++ String (seq_final q) "")).
  - apply sub_csi_skip.
  - clear. induction (seq_params q) as [|c p IH]; [reflexivity|].
    rewrite app_cons. cbn [String.length]. rewrite IH. reflexivity.
Qed.

Lemma esc_free_uncoloured segs tail :
  well_coloured segs -> esc_free tail = true -> esc_free (uncoloured segs tail) = true.
Proof.
  induction 1 as [|[p q] segs [Hp _] _ IH]; intros Ht; cbn [uncoloured]; [exact Ht|].
  rewrite esc_free_app. cbn [fst] in Hp. rewrite Hp. apply IH, Ht.
Qed.

Lemma sub_csi_coloured segs tail :
  well_coloured segs -> esc_free tail = true ->
  sub_csi 0 (coloured segs tail) = uncoloured segs tail.
Proof.
  induction 1 as [|[p q] segs [Hp Hq] _ IH]; intros Ht; cbn [coloured uncoloured].
  - apply sub_csi_none, has_csi_esc_free, Ht.
  - cbn [fst snd] in *. rewrite sub_csi_plain by exact Hp.
    rewrite sub_csi_sequence by exact Hq. rewrite IH by exact Ht. reflexivity.
Qed.

(** X5: the stripping removes exactly the escape sequences of coloured
    text: for pieces without the escape character, each followed by a
    sequence [ESC [ params final], the result is the pieces joined; it
    holds no escape sequence, and neither does any cut of it. *)
Theorem strip_csi_coloured segs tail :
  well_coloured segs -> esc_free tail = true ->
  strip_csi (coloured segs tail) = uncoloured segs tail /\
  has_csi (uncoloured segs tail) = false /\
  forall n, has_csi (str_take n (uncoloured segs tail)) = false.
Proof.
  intros Hs Ht. split; [apply sub_csi_coloured; assumption|].
  pose proof (esc_free_uncoloured segs tail Hs Ht) as Hf.
  split; [apply has_csi_esc_free, Hf|].
  intros n. apply has_csi_esc_free, esc_free_take, Hf.
Qed.

(** ** Errors and the order of the steps *)

Lemma bind_raise {A B} (m : M A) (k : A -> M B) σ σ' e :
  m σ = (σ', Raise e) -> bind m k σ = (σ', Raise e).
Proof. unfold bind. intros ->. reflexivity. Qed.

Lemma bind_assoc {A B C} (m : M A) (f : A -> M B) (g : B -> M C) σ :
  bind (bind m f) g σ = bind m (fun x => bind (f x) g) σ.
Proof. unfold bind. destruct (m σ) as [σ' [a|e|]]; reflexivity. Qed.

Lemma getattr_none r k σ :
  the_record σ r !! k = None -> getattr r k σ = (σ, Raise AttributeError).
Proof. unfold getattr, bind, gets. intros ->. reflexivity. Qed.

Lemma getattr_store r k σ : fst (getattr r k σ) = σ.
Proof. unfold getattr, bind, gets. destruct (the_record σ r !! k); reflexivity. Qed.

Lemma pick_all_missing c ρ δ (a : attrs) keys k :
  k ∈ keys -> a !! k = None ->
  pick_all c keys (Store (<[c := a]> ρ) δ) = (Store (<[c := a]> ρ) δ, Raise AttributeError).
Proof.
  intros Hin Hk. induction keys as [|x keys IH]; [inversion Hin|].
  cbn [pick_all]. destruct (a !! x) as [v|] eqn:Hx.
  - run_step. apply elem_of_cons in Hin as [->|Hin]; [congruence|].
    erewrite bind_raise by (apply IH; exact Hin). reflexivity.
  - erewrite bind_raise; [reflexivity|].
    apply getattr_none. rewrite the_record_insert. exact Hx.
Qed.

(** ** Frames, attribute by attribute *)

Lemma touches_only_ret {A} c ks (a : A) : touches_only c ks (ret a).
Proof. intros σ. repeat split; auto. Qed.

Lemma touches_only_raise {A} c ks e : touches_only c ks (@raise A e).
Proof. intros σ. repeat split; auto. Qed.

Lemma touches_only_liftr {A} c ks (m : result A) : touches_only c ks (liftr m).
Proof. intros σ. repeat split; auto. Qed.

Lemma touches_only_gets {A} c ks (f : store -> A) : touches_only c ks (gets f).
Proof. intros σ. repeat split; auto. Qed.

Lemma touches_only_bind {A B} c ks (m : M A) (k : A -> M B) :
  touches_only c ks m -> (forall a, touches_only c ks (k a)) -> touches_only c ks (bind m k).
Proof.
  intros Hm Hk σ. unfold bind. destruct (Hm σ) as (Hd & Hr & Ha).
  destruct (m σ) as [σ' [a| |]]; cbn [fst] in *; [|repeat split; auto..].
  destruct (Hk a σ') as (Hd' & Hr' & Ha'). split; [congruence|]. split.
  - intros r Hne. rewrite Hr', Hr; auto.
  - intros k0 Hk0. rewrite Ha', Ha; auto.
Qed.

Lemma touches_only_getattr c ks r k : touches_only c ks (getattr r k).
Proof.
  unfold getattr. apply touches_only_bind; [apply touches_only_gets|].
  intros a. destruct (a !! k); [apply touches_only_ret|apply touches_only_raise].
Qed.

Lemma touches_only_setattr c ks k v : k ∈ ks -> touches_only c ks (setattr c k v).
Proof.
  intros Hk σ. split; [reflexivity|]. split.
  - intros r Hne. cbn. rewrite lookup_insert_ne; auto.
  - intros k0 Hk0. unfold setattr. cbn [fst]. rewrite the_record_insert.
    rewrite lookup_insert_ne; [reflexivity|]. intros ->. contradiction.
Qed.

Lemma touches_only_more {A} c ks ks' (m : M A) :
  (forall k, k ∈ ks -> k ∈ ks') -> touches_only c ks m -> touches_only c ks' m.
Proof.
  intros Hsub Hm σ. destruct (Hm σ) as (Hd & Hr & Ha).
  split; [exact Hd|]. split; [exact Hr|].
  intros k Hk. apply Ha. intros Hin. apply Hk, Hsub, Hin.
Qed.

Ltac touches_only_step :=
  first
    [ apply touches_only_ret | apply touches_only_raise | apply touches_only_liftr
    | apply touches_only_gets | apply touches_only_getattr
    | apply touches_only_setattr; repeat constructor
    | apply touches_only_bind; [|intros]
    | match goal with
      | |- touches_only _ _ (if ?b then _ else _) => destruct b
      | |- touches_only _ _ (match ?x with _ => _ end) => destruct x
      end
    | progress cbv zeta ].

Section Cache_facts.
Variable rt : runtime.

Lemma getMessage_store r σ : fst (getMessage rt r σ) = σ.
Proof.
unfold getMessage, bind, gets, liftr, ret.
rewrite (surjective_pairing (getattr r "msg" σ)), getattr_store.
destruct (snd (getattr r "msg" σ)) as [msg| |]; try reflexivity.
destruct (py_str rt (dicts σ) msg) as [text| |]; try reflexivity.
rewrite (surjective_pairing (getattr r "args" σ)), getattr_store.
destruct (snd (getattr r "args" σ)) as [args| |]; try reflexivity.
destruct (truthy (dicts σ) args); reflexivity.
Qed.

Lemma touches_only_Formatter_format fmt c :
touches_only c ["message"; "asctime"; "exc_text"] (Formatter_format rt fmt c).
Proof.
unfold Formatter_format, store_message, getMessage, formatMessage, append_traces.
repeat touches_only_step.
Qed.

(** After [record.message] is assigned, the rest of [Formatter.format]
    assigns nothing but [asctime] and [exc_text]. *)
Lemma touches_only_after_message fmt c :
touches_only c ["asctime"; "exc_text"]
  (bind (if usesTime fmt then
           bind (gets (fun σ => the_record σ c))
                (fun a => setattr c "asctime" (VStr (formatTime rt a)))
         else ret tt)
        (fun _ => bind (formatMessage rt fmt c) (fun s => append_traces rt c s))).
Proof.
unfold formatMessage, append_traces. repeat touches_only_step.
Qed.

Lemma Formatter_format_stores fmt r σ out :
snd (Formatter_format rt fmt r σ) = Ok out ->
exists m, snd (getMessage rt r σ) = Ok m /\
  the_record (fst (Formatter_format rt fmt r σ)) r !! "message" = Some (VStr m).
Proof.
unfold Formatter_format, store_message.
rewrite bind_assoc.
pose proof (getMessage_store r σ) as Hst.
destruct (getMessage rt r σ) as [σ0 [m|e|]] eqn:E; cbn [fst] in Hst; subst σ0;
  [|unfold bind at 1; rewrite E; discriminate..].
rewrite (bind_ok _ _ _ _ _ E). rewrite bind_assoc.
rewrite (bind_ok _ _ _ _ _ eq_refl). intros _. exists m. split; [reflexivity|].
destruct (touches_only_after_message fmt r
            (Store (<[r := <["message" := VStr m]> (the_record σ r)]> (recs σ)) (dicts σ)))
  as (_ & _ & Ha).
rewrite Ha.
- rewrite the_record_insert. apply lookup_insert_eq.
- intros H. repeat (apply elem_of_cons in H as [H|H]; [discriminate|]). inversion H.
Qed.

End Cache_facts.

Section ColorFormatter_cache.
Variable rt : runtime.
Variable level_code : LogVerbosity -> Z.

(** X15: [ColorFormatter.format] works on the caller's record, without a
    copy: of that record it may assign [message], [asctime] and [exc_text]
    and nothing else; every other record and every dict object are as
    before, whether it returns or raises. *)
Theorem ColorFormatter_format_frame self r σ :
let σ' := fst (ColorFormatter_format rt level_code self r σ) in
dicts σ' = dicts σ /\
(forall r', r' ≠ r -> recs σ' !! r' = recs σ !! r') /\
(forall k, k ∉ ["message"; "asctime"; "exc_text"] ->
           the_record σ' r !! k = the_record σ r !! k).
Proof.
cbv zeta.
assert (H : touches_only r ["message"; "asctime"; "exc_text"]
              (ColorFormatter_format rt level_code self r)).
{ unfold ColorFormatter_format.
  repeat first [ apply touches_only_Formatter_format | touches_only_step ]. }
apply H.
Qed.

(** X16: whenever [ColorFormatter.format] returns, the caller's record
    holds the text of the message, as [getMessage] gives it, under
    [message]. *)
Theorem ColorFormatter_format_stores_message self r σ out :
snd (ColorFormatter_format rt level_code self r σ) = Ok out ->
exists m, snd (getMessage rt r σ) = Ok m /\
  the_record (fst (ColorFormatter_format rt level_code self r σ)) r !! "message" =
    Some (VStr m).
Proof.
unfold ColorFormatter_format.
pose proof (getattr_store r "levelno" σ) as Hst.
destruct (getattr r "levelno" σ) as [σ0 [lv|e|]] eqn:E; cbn [fst] in Hst; subst σ0;
  [|unfold bind at 1; rewrite E; discriminate..].
rewrite (bind_ok _ _ _ _ _ E).
unfold bind at 1, liftr at 1.
destruct (formatters_get level_code (cf_formatters self) lv) as [[t|]|e|];
  try discriminate.
apply Formatter_format_stores.
Qed.

End ColorFormatter_cache.

(** ** The characters of the JSON output *)

(** ** Printable text *)

Lemma printable_app a b : printable (a ++ b) = printable a && printable b.
Proof.
  induction a as [|c a IH]; [reflexivity|].
  rewrite app_cons. cbn [printable]. rewrite IH, andb_assoc. reflexivity.
Qed.

Lemma printable_esc_free s : printable s = true -> esc_free s = true.
Proof.
  induction s as [|c s IH]; [reflexivity|].
  cbn [printable esc_free]. intros [Hc Hs]%andb_prop. rewrite IH by exact Hs.
  destruct c as [[] [] [] [] [] [] [] []]; try reflexivity; discriminate.
Qed.

Lemma printable_one_line s : printable s = true -> one_line s = true.
Proof.
  induction s as [|c s IH]; [reflexivity|].
  cbn [printable one_line]. intros [Hc Hs]%andb_prop. rewrite IH by exact Hs.
  destruct c as [[] [] [] [] [] [] [] []]; try reflexivity; discriminate.
Qed.

Lemma json_char_printable c : printable (json_char c) = true.
Proof. destruct c as [[] [] [] [] [] [] [] []]; reflexivity. Qed.

Lemma json_escape_printable s : printable (json_escape s) = true.
Proof.
  induction s as [|c s IH]; [reflexivity|].
  cbn [json_escape]. rewrite printable_app, json_char_printable, IH. reflexivity.
Qed.

Lemma json_string_printable s : printable (json_string s) = true.
Proof.
  unfold json_string. rewrite !printable_app, json_escape_printable. reflexivity.
Qed.

Lemma uint_printable d : printable (NilEmpty.string_of_uint d) = true.
Proof. induction d; cbn; auto. Qed.

Lemma uint0_printable d : printable (NilZero.string_of_uint d) = true.
Proof. destruct d; try reflexivity; apply (uint_printable (_ d)) || apply uint_printable. Qed.

Lemma int_printable i : printable (NilZero.string_of_int i) = true.
Proof.
  destruct i; cbn [NilZero.string_of_int printable]; rewrite ?uint0_printable; reflexivity.
Qed.

Lemma decimal_text_printable d : printable (decimal_text d) = true.
Proof.
  destruct d as [i f|i f e]; unfold decimal_text;
    rewrite ?printable_app, ?int_printable, ?uint0_printable; cbn [andb]; try reflexivity.
  assert (H1 : printable match f with Nil => "" | _ => "." ++ NilEmpty.string_of_uint f end = true).
  { destruct f; try reflexivity; rewrite printable_app; apply (uint_printable (_ f)). }
  assert (H2 : printable match e with
                         | Pos u => "+" ++ NilZero.string_of_uint u
                         | Neg u => "-" ++ NilZero.string_of_uint u
                         end = true).
  { destruct e; rewrite printable_app, uint0_printable; reflexivity. }
  rewrite H1, H2. reflexivity.
Qed.

Lemma str_join_printable sep l :
  printable sep = true -> Forall (fun s => printable s = true) l ->
  printable (str_join sep l) = true.
Proof.
  intros Hs. induction 1 as [|x l Hx Hl IH]; [reflexivity|].
  cbn [str_join]. destruct l; [exact Hx|].
  rewrite !printable_app, Hx, Hs, IH. reflexivity.
Qed.

Lemma json_object_printable kjs :
  Forall (fun kj => printable (snd kj) = true) kjs -> printable (json_object kjs) = true.
Proof.
  intros H. unfold json_object. rewrite !printable_app. cbn [printable andb].
  rewrite str_join_printable; [reflexivity..|].
  apply Forall_map. eapply Forall_impl; [exact H|].
  intros [k j] Hj. unfold json_member. cbn [fst snd] in *.
  rewrite !printable_app, json_string_printable, Hj. reflexivity.
Qed.

Lemma encode_dict_printable enc (d : pydict) out :
  (forall k v j, d !! k = Some v -> enc v = Ok j -> printable j = true) ->
  encode_dict enc d = Ok out -> printable out = true.
Proof.
  intros H (kjs & -> & _ & Hk)%encode_dict_ok.
  apply json_object_printable, Forall_forall. intros [k j] Hin.
  destruct (Hk k j) as (v & Hv & He); [exact Hin|]. eapply H; eauto.
Qed.

Lemma the_obj_printable δ l : printable_store δ -> printable_obj (the_obj δ l).
Proof.
  intros Hδ. apply (the_obj_lookup printable_obj); [|intros o; apply Hδ].
  split; intros k v H; cbn in H; rewrite lookup_empty in H; discriminate.
Qed.

Lemma encode_obj_printable rt enc (o : dictobj) out :
  (forall k v j, d_str o !! k = Some v -> enc v = Ok j -> printable j = true) ->
  (forall z v j, d_int o !! z = Some v -> enc v = Ok j -> printable j = true) ->
  encode_obj rt enc o = Ok out -> printable out = true.
Proof.
  intros Hs Hi. unfold encode_obj. destruct (d_other o); [discriminate|].
  destruct (bool_decide (d_int o = ∅)); [apply encode_dict_printable, Hs|].
  destruct (bool_decide (d_str o = ∅)); [|discriminate].
  intros (kjs & -> & Hk)%encode_int_dict_ok.
  apply json_object_printable, Forall_forall. intros [k j] Hin.
  destruct (Hk k j Hin) as (z & v & Hv & _ & He). cbn [snd]. eapply Hi; eauto.
Qed.

Lemma encode_printable rt n δ v j :
  printable_store δ -> printable_value v -> encode rt n δ v = Ok j -> printable j = true.
Proof.
  intros Hδ. revert v j.
  assert (Hatom : forall m v j, (forall l, v <> VDict l) -> printable_value v ->
                    encode rt m δ v = Ok j -> printable j = true).
  { intros m v j Hv Hc. destruct v, m; cbn [encode]; try (intros [= <-]);
      try reflexivity; try (destruct b; intros [= <-]; reflexivity);
      try apply json_string_printable; try (exfalso; eapply Hv; reflexivity).
    - intros ->%int_str_ok. unfold int_text. apply int_printable.
    - intros ->%int_str_ok. unfold int_text. apply int_printable.
    - destruct f as [|[]|d]; try reflexivity. apply decimal_text_printable.
    - destruct f as [|[]|d]; try reflexivity. apply decimal_text_printable.
    - cbn in Hc. destruct (o_json o); [intros [= <-]; exact Hc|discriminate].
    - cbn in Hc. destruct (o_json o); [intros [= <-]; exact Hc|discriminate]. }
  induction n as [|n IH]; intros v j Hc.
  - destruct v; try (apply Hatom; [discriminate|exact Hc]). discriminate.
  - destruct v; try (apply Hatom; [discriminate|exact Hc]).
    cbn [encode]. destruct (the_obj_printable δ l Hδ) as [Hs Hi].
    apply encode_obj_printable.
    + intros k v j' Hk. apply IH. eapply Hs; eauto.
    + intros z v j' Hk. apply IH. eapply Hi; eauto.
Qed.

(** ** JsonFormatter, what the output depends on *)

Lemma pick_present_agree keys (a a' : attrs) :
  (forall k, k ∈ keys -> a !! k = a' !! k) -> pick_present keys a = pick_present keys a'.
Proof.
  intros H. apply map_eq. intros k. rewrite !lookup_pick_present.
  case_decide as Hk; [apply H, Hk|reflexivity].
Qed.

Section JsonFormatter_more.
Variable rt : runtime.

Lemma JsonFormatter_format_result r σ :
snd (JsonFormatter_format rt r σ) =
match the_record σ r !! "msg" with
| Some msg =>
    let? text := py_str rt (dicts σ) msg in
    json_dumps_fresh rt (dicts σ)
      (pick_present KEYS (<["msg" := VStr (strip_csi text)]> (the_record σ r)))
| None => Raise AttributeError
end.
Proof.
unfold JsonFormatter_format.
rewrite (bind_ok _ _ _ _ _ (eq_refl : copy r σ = (_, Ok (fresh (dom (recs σ)))))).
destruct (the_record σ r !! "msg") as [msg|] eqn:Hm.
- do 2 run_step. cbn [dicts]. unfold liftr at 1, bind at 1.
  destruct (py_str rt (dicts σ) msg) as [text| |]; try reflexivity.
  do 2 run_step. rewrite the_record_insert. reflexivity.
- erewrite bind_raise; [reflexivity|].
  apply getattr_none. rewrite the_record_insert. exact Hm.
Qed.

Lemma JsonFormatter_format_agree r r' σ σ' :
dicts σ = dicts σ' ->
(forall k, k ∈ KEYS -> the_record σ r !! k = the_record σ' r' !! k) ->
snd (JsonFormatter_format rt r σ) = snd (JsonFormatter_format rt r' σ').
Proof.
intros Hd Ha.
rewrite (JsonFormatter_format_result r σ), (JsonFormatter_format_result r' σ').
rewrite <- Hd, <- (Ha "msg") by (unfold KEYS; repeat constructor).
destruct (the_record σ r !! "msg") as [msg|]; [|reflexivity].
destruct (py_str rt (dicts σ) msg) as [text| |]; try reflexivity. cbn [rbind].
f_equal. apply pick_present_agree. intros k Hk.
destruct (decide (k = "msg")) as [->|Hne].
- rewrite !lookup_insert_eq. reflexivity.
- rewrite !lookup_insert_ne by congruence. apply Ha, Hk.
Qed.

(** X8: the output of [JsonFormatter.format] depends on the record
    through the allow-listed attributes only: on two records that agree on
    them, in stores with the same dict objects, it returns the same result,
    whatever the other attributes ([args] among them) are. *)
Theorem JsonFormatter_format_allow_list r r' σ σ' a a' :
recs σ !! r = Some a -> recs σ' !! r' = Some a' ->
dicts σ = dicts σ' -> (forall k, k ∈ KEYS -> a !! k = a' !! k) ->
snd (JsonFormatter_format rt r σ) = snd (JsonFormatter_format rt r' σ').
Proof.
intros Hr Hr' Hd Ha. apply JsonFormatter_format_agree; [exact Hd|].
rewrite (the_record_some _ _ _ Hr), (the_record_some _ _ _ Hr'). exact Ha.
Qed.

(** X9: when the JSON texts of the [opaque] objects are printable, every
    character of an output of [JsonFormatter.format] is printable ASCII: the
    output holds no escape sequence and no line break, whatever the
    message. *)
Theorem JsonFormatter_format_printable r σ a out :
recs σ !! r = Some a ->
printable_store (dicts σ) -> printable_dict a ->
snd (JsonFormatter_format rt r σ) = Ok out ->
printable out = true /\ has_csi out = false /\ one_line out = true.
Proof.
intros Hr Hδ Ha. rewrite (JsonFormatter_format_result r σ), (the_record_some _ _ _ Hr).
destruct (a !! "msg") as [msg|] eqn:Hm; [|discriminate].
destruct (py_str rt (dicts σ) msg) as [text| |]; try discriminate. cbn [rbind].
intros Hout.
assert (Hp : printable out = true).
{ revert Hout. apply encode_dict_printable. intros k v j Hk.
  apply encode_printable; [exact Hδ|].
  destruct (picked_values a _ k v Hk) as [_ [[_ ->]|[_ Hv]]]; [exact I|].
  eapply Ha; eauto. }
split; [exact Hp|]. split.
- apply has_csi_esc_free, printable_esc_free, Hp.
- apply printable_one_line, Hp.
Qed.

Section After.
Variable level_code : LogVerbosity -> Z.

(** X10: formatting a record with [PlainFormatter], [JsonFormatter] or
    [ColorFormatter] first does not change what [JsonFormatter.format]
    returns for it afterwards: the first two leave the record as it was,
    and the attributes [ColorFormatter] assigns are not allow-listed. *)
Theorem JsonFormatter_format_after r σ a :
recs σ !! r = Some a ->
(forall fmt, snd (JsonFormatter_format rt r (fst (PlainFormatter_format rt fmt r σ))) =
             snd (JsonFormatter_format rt r σ)) /\
snd (JsonFormatter_format rt r (fst (JsonFormatter_format rt r σ))) =
  snd (JsonFormatter_format rt r σ) /\
(forall self,
   snd (JsonFormatter_format rt r (fst (ColorFormatter_format rt level_code self r σ))) =
   snd (JsonFormatter_format rt r σ)).
Proof.
intros Hr. split; [|split].
- intros fmt.
  destruct (touches_after_copy
              (fun cr => let! msg := getattr cr "msg" in
                         match msg with
                         | VStr s => setattr cr "msg" (VStr (str_take 512 (strip_csi s)))
                         | _ => ret tt
                         end >> Formatter_format rt fmt cr) r σ a Hr) as [Hr' Hd'].
  { intros c. repeat first [ apply touches_Formatter_format | touches_step ]. }
  change (recs (fst (PlainFormatter_format rt fmt r σ)) !! r = Some a) in Hr'.
  apply JsonFormatter_format_agree; [exact Hd'|]. intros k _.
  rewrite (the_record_some _ _ _ Hr), (the_record_some _ _ _ Hr'). reflexivity.
- destruct (touches_after_copy
              (fun cr => let! msg := getattr cr "msg" in
                         let! δ := gets dicts in
                         let! text := liftr (py_str rt δ msg) in
                         setattr cr "msg" (VStr (strip_csi text)) >>
                         let! a := gets (fun σ => the_record σ cr) in
                         liftr (json_dumps_fresh rt δ (pick_present KEYS a))) r σ a Hr)
    as [Hr' Hd'].
  { intros c. touches_tac. }
  change (recs (fst (JsonFormatter_format rt r σ)) !! r = Some a) in Hr'.
  apply JsonFormatter_format_agree; [exact Hd'|]. intros k _.
  rewrite (the_record_some _ _ _ Hr), (the_record_some _ _ _ Hr'). reflexivity.
- intros self.
  assert (H : touches_only r ["message"; "asctime"; "exc_text"]
                (ColorFormatter_format rt level_code self r)).
  { unfold ColorFormatter_format.
    repeat first [ apply touches_only_Formatter_format | touches_only_step ]. }
  destruct (H σ) as (Hd & _ & Hk).
  apply JsonFormatter_format_agree; [exact Hd|]. intros k Hin. apply Hk.
  intros Hc. unfold KEYS in Hin.
  repeat (apply elem_of_cons in Hc as [->|Hc];
          [repeat (apply elem_of_cons in Hin as [Hin|Hin]; [discriminate|]); inversion Hin|]).
  inversion Hc.
Qed.

End After.
End JsonFormatter_more.

(** ** PlainFormatter, the message and the template *)

Section PlainFormatter_more.
Variable rt : runtime.

(** X4: with a template that holds [%(message)s] between literal texts,
    and a record whose message is a string, without arguments, exception or
    stack, [PlainFormatter.format] returns the literal texts around the
    message it assigned to the copy. That message is a prefix of the
    stripped text, is no longer than the message of the record, and is the
    whole stripped text when that has at most 512 characters. *)
Theorem PlainFormatter_format_template pre post r σ a s args ei et si :
recs σ !! r = Some a -> a !! "msg" = Some (VStr s) ->
percent_free pre = true -> percent_free post = true ->
a !! "args" = Some args -> truthy (dicts σ) args = false ->
a !! "exc_info" = Some ei -> truthy (dicts σ) ei = false ->
a !! "exc_text" = Some et -> truthy (dicts σ) et = false ->
a !! "stack_info" = Some si -> truthy (dicts σ) si = false ->
let m := str_take 512 (strip_csi s) in
snd (PlainFormatter_format rt (pre ++ "%(message)s" ++ post) r σ) = Ok (pre ++ m ++ post) /\
str_prefix m (strip_csi s) = true /\
(String.length m <= String.length s)%nat /\
((String.length (strip_csi s) <= 512)%nat -> m = strip_csi s).
Proof.
intros Hr Hm Hpre Hpost Hargs Ha Hei He Het Ht Hsi Hs m.
split; [|split; [|split]].
- rewrite (PlainFormatter_format_unfold rt _ r σ a (VStr s) Hr Hm).
  erewrite Formatter_format_message with (msg := VStr m) (args := args)
    (ei := ei) (et := et) (si := si); try reflexivity; try solve_lookup; assumption.
- apply str_prefix_take.
- unfold m. rewrite length_str_take. pose proof (length_sub_csi 0 s). unfold strip_csi. lia.
- intros Hlen. apply str_take_all, Hlen.
Qed.

(** X6: for a message that is coloured text, [PlainFormatter.format]
    returns the template's literal texts around the first 512 characters of
    the plain text; when the literal texts hold no escape character the
    output holds no escape sequence. *)
Theorem PlainFormatter_format_coloured pre post r σ a segs tail args ei et si :
recs σ !! r = Some a -> a !! "msg" = Some (VStr (coloured segs tail)) ->
well_coloured segs -> esc_free tail = true ->
percent_free pre = true -> percent_free post = true ->
esc_free pre = true -> esc_free post = true ->
a !! "args" = Some args -> truthy (dicts σ) args = false ->
a !! "exc_info" = Some ei -> truthy (dicts σ) ei = false ->
a !! "exc_text" = Some et -> truthy (dicts σ) et = false ->
a !! "stack_info" = Some si -> truthy (dicts σ) si = false ->
let out := pre ++ str_take 512 (uncoloured segs tail) ++ post in
snd (PlainFormatter_format rt (pre ++ "%(message)s" ++ post) r σ) = Ok out /\
has_csi out = false.
Proof.
intros Hr Hm Hw Htail Hpre Hpost Hepre Hepost Hargs Ha Hei He Het Ht Hsi Hs out.
split.
- rewrite (PlainFormatter_format_unfold rt _ r σ a _ Hr Hm).
  erewrite Formatter_format_message
    with (msg := VStr (str_take 512 (strip_csi (coloured segs tail)))) (args := args)
         (ei := ei) (et := et) (si := si); try reflexivity; try solve_lookup; try assumption.
  cbn [snd py_str]. unfold strip_csi. rewrite sub_csi_coloured by assumption. reflexivity.
- apply has_csi_esc_free. unfold out. rewrite !esc_free_app, Hepre, Hepost.
  rewrite esc_free_take by (apply esc_free_uncoloured; assumption). reflexivity.
Qed.

End PlainFormatter_more.

(** ** ProfileFormatter, the dict it updates *)

Lemma merged_again (d : pydict) vc vm vp vt m1 m2 :
  merged (merged d vc vm vp vt m1) vc vm vp vt m2 = merged d vc vm vp vt m2.
Proof.
  apply map_eq. intros k. unfold merged. rewrite !lookup_insert.
  repeat case_decide; congruence.
Qed.

Section ProfileFormatter_more.
Variable rt : runtime.

(** X11: for a record whose message is a dict, after
    [ProfileFormatter.format] the dict holds the record's [created],
    [module], [process] and [thread] and the memory reading under [memory],
    in place of what it held under these keys; its other keys, the other
    dict objects and every record of the caller are as before. This holds
    whether the encoder then succeeds or raises. *)
Theorem ProfileFormatter_format_merges memory r σ a l vc vm vp vt :
recs σ !! r = Some a -> a !! "msg" = Some (VDict l) ->
a !! "created" = Some vc -> a !! "module" = Some vm ->
a !! "process" = Some vp -> a !! "thread" = Some vt ->
let σ' := fst (ProfileFormatter_format rt memory r σ) in
let d := the_dict (dicts σ) l in
let d' := the_dict (dicts σ') l in
d' !! "created" = Some vc /\ d' !! "module" = Some vm /\
d' !! "process" = Some vp /\ d' !! "thread" = Some vt /\
d' !! "memory" = Some memory /\
(forall k, k ∉ ["created"; "module"; "process"; "thread"; "memory"] -> d' !! k = d !! k) /\
(forall l', l' ≠ l -> dicts σ' !! l' = dicts σ !! l') /\
(forall r' a', recs σ !! r' = Some a' -> recs σ' !! r' = Some a') /\
d_int (the_obj (dicts σ') l) = d_int (the_obj (dicts σ) l) /\
d_other (the_obj (dicts σ') l) = d_other (the_obj (dicts σ) l).
Proof.
intros Hr Hm Hc Hmo Hp Ht σ' d d'. unfold d', σ'.
rewrite (ProfileFormatter_format_unfold rt memory r σ a l vc vm vp vt) by assumption.
cbn [fst recs dicts]. rewrite the_dict_insert, the_obj_insert.
cbn [set_items d_str d_int d_other]. fold d. unfold merged.
repeat split.
- rewrite !lookup_insert_ne by discriminate. apply lookup_insert_eq.
- rewrite !lookup_insert_ne by discriminate. apply lookup_insert_eq.
- rewrite !lookup_insert_ne by discriminate. apply lookup_insert_eq.
- rewrite !lookup_insert_ne by discriminate. apply lookup_insert_eq.
- apply lookup_insert_eq.
- intros k Hk. rewrite !lookup_insert_ne; [reflexivity|..];
    intros <-; apply Hk; repeat constructor.
- intros l' Hl. apply lookup_insert_ne. congruence.
- intros r' a' Hr'. rewrite lookup_insert_ne; [exact Hr'|].
  intros <-. pose proof (is_fresh (dom (recs σ))) as Hf. apply Hf, elem_of_dom. eauto.
Qed.

(** X12: when the message is a dict and one of [created], [module],
    [process], [thread] is missing from the record,
    [ProfileFormatter.format] raises [AttributeError] before it updates
    anything: the dict objects and the caller's record are as before. *)
Theorem ProfileFormatter_format_missing_attribute memory r σ a l k :
recs σ !! r = Some a -> a !! "msg" = Some (VDict l) ->
k ∈ ["created"; "module"; "process"; "thread"] -> a !! k = None ->
snd (ProfileFormatter_format rt memory r σ) = Raise AttributeError /\
dicts (fst (ProfileFormatter_format rt memory r σ)) = dicts σ /\
recs (fst (ProfileFormatter_format rt memory r σ)) !! r = Some a.
Proof.
intros Hr Hm Hk Hnone. unfold ProfileFormatter_format.
rewrite (bind_ok _ _ _ _ _ (copy_some _ _ _ Hr)).
run_step. cbv beta iota.
erewrite bind_raise by (eapply pick_all_missing; eassumption).
cbn [fst snd recs dicts]. split; [reflexivity|]. split; [reflexivity|].
rewrite lookup_insert_ne by (eapply copy_fresh; eauto). exact Hr.
Qed.

(** X13: formatting a record again with [ProfileFormatter] gives what a
    first call with the same memory reading would have given, result and
    dict objects alike: the keys written by the earlier call are written
    over. *)
Theorem ProfileFormatter_format_again m1 m2 r σ a l vc vm vp vt :
recs σ !! r = Some a -> a !! "msg" = Some (VDict l) ->
a !! "created" = Some vc -> a !! "module" = Some vm ->
a !! "process" = Some vp -> a !! "thread" = Some vt ->
let σ1 := fst (ProfileFormatter_format rt m1 r σ) in
snd (ProfileFormatter_format rt m2 r σ1) = snd (ProfileFormatter_format rt m2 r σ) /\
dicts (fst (ProfileFormatter_format rt m2 r σ1)) =
  dicts (fst (ProfileFormatter_format rt m2 r σ)).
Proof.
intros Hr Hm Hc Hmo Hp Ht σ1.
destruct (ProfileFormatter_format_in_place rt m1 r σ a l vc vm vp vt) as [Hr1 Hd1];
  try assumption. fold σ1 in Hr1, Hd1.
set (o := the_obj (dicts σ) l) in *.
assert (Hδ1 : dicts σ1 =
              <[l := set_items o (merged (the_dict (dicts σ) l) vc vm vp vt m1)]> (dicts σ)).
{ unfold σ1.
  rewrite (ProfileFormatter_format_unfold rt m1 r σ a l vc vm vp vt) by assumption.
  reflexivity. }
rewrite (ProfileFormatter_format_unfold rt m2 r σ1 a l vc vm vp vt) by assumption.
rewrite (ProfileFormatter_format_unfold rt m2 r σ a l vc vm vp vt) by assumption.
cbn [fst snd dicts]. fold o.
assert (E : <[l := set_items (the_obj (dicts σ1) l)
                     (merged (the_dict (dicts σ1) l) vc vm vp vt m2)]> (dicts σ1) =
            <[l := set_items o (merged (the_dict (dicts σ) l) vc vm vp vt m2)]> (dicts σ)).
{ rewrite Hδ1, the_dict_insert, the_obj_insert, insert_insert_eq.
  cbn [set_items d_str d_int d_other]. rewrite merged_again. reflexivity. }
rewrite E. split; reflexivity.
Qed.

End ProfileFormatter_more.

Section Missing_message.
Variable rt : runtime.

(** X14: on a record without the attribute [msg],
    [PlainFormatter.format], [JsonFormatter.format] and
    [ProfileFormatter.format] raise [AttributeError]; no dict object is
    changed. *)
Theorem format_without_message r σ a :
recs σ !! r = Some a -> a !! "msg" = None ->
(forall fmt, snd (PlainFormatter_format rt fmt r σ) = Raise AttributeError) /\
snd (JsonFormatter_format rt r σ) = Raise AttributeError /\
(forall memory, snd (ProfileFormatter_format rt memory r σ) = Raise AttributeError /\
                dicts (fst (ProfileFormatter_format rt memory r σ)) = dicts σ).
Proof.
intros Hr Hm.
assert (Hg : forall ρ δ c, getattr c "msg" (Store (<[c := a]> ρ) δ) =
                           (Store (<[c := a]> ρ) δ, Raise AttributeError)).
{ intros ρ δ c. apply getattr_none. rewrite the_record_insert. exact Hm. }
split; [|split].
- intros fmt. unfold PlainFormatter_format.
  rewrite (bind_ok _ _ _ _ _ (copy_some _ _ _ Hr)).
  erewrite bind_raise by apply Hg. reflexivity.
- unfold JsonFormatter_format.
  rewrite (bind_ok _ _ _ _ _ (copy_some _ _ _ Hr)).
  erewrite bind_raise by apply Hg. reflexivity.
- intros memory. unfold ProfileFormatter_format.
  rewrite (bind_ok _ _ _ _ _ (copy_some _ _ _ Hr)).
  erewrite bind_raise by apply Hg. split; reflexivity.
Qed.

End Missing_message.

(** ** Arguments of the message *)

Section Arguments_facts.
Variable rt : runtime.

Lemma getMessage_args c ρ δ a msg text args :
a !! "msg" = Some msg -> py_str rt δ msg = Ok text ->
a !! "args" = Some args -> truthy δ args = true ->
getMessage rt c (Store (<[c := a]> ρ) δ) =
(Store (<[c := a]> ρ) δ, str_mod rt δ text args).
Proof.
intros Hmsg Hs Hargs Ha. unfold getMessage.
do 2 run_step. cbn [dicts]. rewrite Hs. do 2 run_step. rewrite Ha. reflexivity.
Qed.

Lemma Formatter_format_text pre post c ρ δ a text ei et si :
percent_free pre = true -> percent_free post = true ->
getMessage rt c (Store (<[c := a]> ρ) δ) = (Store (<[c := a]> ρ) δ, Ok text) ->
a !! "exc_info" = Some ei -> truthy δ ei = false ->
a !! "exc_text" = Some et -> truthy δ et = false ->
a !! "stack_info" = Some si -> truthy δ si = false ->
Formatter_format rt (pre ++ "%(message)s" ++ post) c (Store (<[c := a]> ρ) δ) =
(Store (<[c := <["message" := VStr text]> a]> ρ) δ, Ok (pre ++ text ++ post)).
Proof.
intros Hpre Hpost Hget Hei He Het Ht Hsi Hs.
unfold Formatter_format, store_message.
rewrite usesTime_message by assumption.
rewrite bind_assoc. erewrite bind_ok by exact Hget.
rewrite bind_assoc. erewrite bind_ok by apply setattr_insert.
erewrite bind_ok by reflexivity.
erewrite bind_ok.
2:{ rewrite formatMessage_run.
    rewrite percent_format_message with (m := text)
      by (assumption || apply lookup_insert_eq). reflexivity. }
apply append_traces_quiet with (ei := ei) (et := et) (si := si);
  solve [ assumption | solve_lookup ].
Qed.

(** X7: the arguments of the message are interpolated after the
    stripping and the cut, which apply to [msg] alone: for a record with
    arguments, [PlainFormatter.format] returns whatever [msg % args] gives
    for the stripped and cut [msg], neither stripped nor cut. *)
Theorem PlainFormatter_format_arguments pre post r σ a s args t ei et si :
recs σ !! r = Some a -> a !! "msg" = Some (VStr s) ->
percent_free pre = true -> percent_free post = true ->
a !! "args" = Some args -> truthy (dicts σ) args = true ->
str_mod rt (dicts σ) (str_take 512 (strip_csi s)) args = Ok t ->
a !! "exc_info" = Some ei -> truthy (dicts σ) ei = false ->
a !! "exc_text" = Some et -> truthy (dicts σ) et = false ->
a !! "stack_info" = Some si -> truthy (dicts σ) si = false ->
snd (PlainFormatter_format rt (pre ++ "%(message)s" ++ post) r σ) = Ok (pre ++ t ++ post).
Proof.
intros Hr Hm Hpre Hpost Hargs Ha Hmod Hei He Het Ht Hsi Hs.
rewrite (PlainFormatter_format_unfold rt _ r σ a (VStr s) Hr Hm).
erewrite Formatter_format_text with (text := t) (ei := ei) (et := et) (si := si);
  try reflexivity; try solve_lookup; try assumption.
rewrite (getMessage_args _ _ _ _ (VStr (str_take 512 (strip_csi s)))
           (str_take 512 (strip_csi s)) args);
  [rewrite Hmod; reflexivity|solve_lookup|reflexivity|solve_lookup|assumption].
Qed.

End Arguments_facts.

(** ** Levels that are no number, and formatters in a row *)

Section ColorFormatter_levels.
Variable rt : runtime.
Variable level_code : LogVerbosity -> Z.

Lemma formatters_get_never fs v :
(forall k, level_eq level_code k v = false) ->
List.find (fun kt : LogVerbosity * string => level_eq level_code (fst kt) v) fs = None.
Proof.
intros H. induction fs as [|[k t] fs IH]; [reflexivity|].
cbn [List.find fst]. rewrite H. exact IH.
Qed.

(** X17: a level number that is missing, [None] or a string finds no
    formatter, for any table of formatters, and [ColorFormatter.format]
    raises [AttributeError]; a dict is not hashable and the lookup raises
    [TypeError]. The store is unchanged in each case. *)
Theorem ColorFormatter_format_bad_level self r σ a :
recs σ !! r = Some a ->
(a !! "levelno" = None ->
 ColorFormatter_format rt level_code self r σ = (σ, Raise AttributeError)) /\
(forall v, a !! "levelno" = Some v -> v = VNone \/ is_str v = true ->
 ColorFormatter_format rt level_code self r σ = (σ, Raise AttributeError)) /\
(forall l, a !! "levelno" = Some (VDict l) ->
 ColorFormatter_format rt level_code self r σ = (σ, Raise TypeError)).
Proof.
intros Hr. unfold ColorFormatter_format. split; [|split].
- intros Hl. erewrite bind_raise; [reflexivity|].
  apply getattr_none. rewrite (the_record_some _ _ _ Hr). exact Hl.
- intros v Hl Hv.
  erewrite bind_ok by (apply getattr_some; rewrite (the_record_some _ _ _ Hr); exact Hl).
  unfold liftr at 1.
  assert (Hget : formatters_get level_code (cf_formatters self) v = Ok None).
  { destruct Hv as [->|Hs]; [|destruct v; try discriminate]; cbn [formatters_get];
      rewrite formatters_get_never by reflexivity; reflexivity. }
  erewrite bind_ok by (rewrite Hget; reflexivity). reflexivity.
- intros l Hl.
  erewrite bind_ok by (apply getattr_some; rewrite (the_record_some _ _ _ Hr); exact Hl).
  reflexivity.
Qed.

End ColorFormatter_levels.

Section After_profile.
Variable rt : runtime.

(** X18: [ProfileFormatter.format] is seen by the formatters that come
    after it: for a record whose message is a dict, [JsonFormatter.format]
    afterwards writes under [msg] the text of the dict with the five keys
    merged in, where before it wrote the text of the dict as the caller
    made it. *)
Theorem JsonFormatter_format_after_profile memory r σ a l vc vm vp vt :
recs σ !! r = Some a -> a !! "msg" = Some (VDict l) ->
a !! "created" = Some vc -> a !! "module" = Some vm ->
a !! "process" = Some vp -> a !! "thread" = Some vt ->
let o := the_obj (dicts σ) l in
let d := the_dict (dicts σ) l in
let σ' := fst (ProfileFormatter_format rt memory r σ) in
snd (JsonFormatter_format rt r σ) =
  (let? text := dict_text rt o in
   json_dumps_fresh rt (dicts σ)
     (pick_present KEYS (<["msg" := VStr (strip_csi text)]> a))) /\
snd (JsonFormatter_format rt r σ') =
  (let? text := dict_text rt (set_items o (merged d vc vm vp vt memory)) in
   json_dumps_fresh rt (dicts σ')
     (pick_present KEYS (<["msg" := VStr (strip_csi text)]> a))).
Proof.
intros Hr Hm Hc Hmo Hp Ht o d σ'.
destruct (ProfileFormatter_format_in_place rt memory r σ a l vc vm vp vt) as [Hr' Hd'];
  try assumption. fold σ' d o in Hr', Hd'.
rewrite !JsonFormatter_format_result.
rewrite (the_record_some _ _ _ Hr), (the_record_some _ _ _ Hr'), Hm.
cbn [py_str]. fold o. split; [reflexivity|].
rewrite (the_obj_some _ _ _ Hd'). reflexivity.
Qed.

End After_profile.

(** ** Instances *)

Lemma PlainFormatter_truncates_message_witness :
  String.length long_message = 600%nat /\ has_csi long_message = false /\
  String.length (str_take 512 (strip_csi long_message)) = 512%nat /\
  snd (PlainFormatter_format rt0 "%(message)s" 1%positive
         (one_record (base_record 20 "INFO" (VStr long_message)))) =
    Ok (str_take 512 (strip_csi long_message)).
Proof.
  destruct (PlainFormatter_truncates_message rt0 1%positive
              (one_record (base_record 20 "INFO" (VStr long_message)))
              (base_record 20 "INFO" (VStr long_message)) long_message empty_tuple)
    as (_ & H2 & _ & _ & H5); [reflexivity..|].
  split; [reflexivity|]. split; [reflexivity|]. split.
  - apply H2; reflexivity.
  - apply (H5 "" "" VNone VNone VNone); reflexivity.
Defined.

Lemma PlainFormatter_leaves_other_messages_witness :
  snd (PlainFormatter_format rt0 "%(message)s" 1%positive
         (one_record (base_record 20 "INFO" a_coloured_object))) =
    Ok (String ESC "[31mred") /\
  has_csi (String ESC "[31mred") = true.
Proof.
  destruct (PlainFormatter_leaves_other_messages rt0 "%(message)s" 1%positive
              (one_record (base_record 20 "INFO" a_coloured_object))
              (base_record 20 "INFO" a_coloured_object) a_coloured_object)
    as (_ & _ & _ & H); [reflexivity..|].
  split; [|reflexivity].
  apply (H "" "" empty_tuple VNone VNone VNone); reflexivity.
Defined.

Lemma JsonFormatter_format_object_witness :
  exists kjs,
    snd (JsonFormatter_format rt0 1%positive (one_record json_example)) =
      Ok (json_object kjs) /\
    Sorted str_le (map fst kjs) /\
    ("msg", json_string "hello") ∈ kjs.
Proof.
  destruct (JsonFormatter_format_object rt0 1%positive (one_record json_example)
              json_example (VStr "hello"))
    as (H & _); [reflexivity..|].
  destruct (H "hello") as (kjs & H1 & H2 & _ & _ & H5 & _); [reflexivity| |eauto].
  intros k v _ _ Ha. apply elem_of_list_to_map_2 in Ha.
  repeat (apply elem_of_cons in Ha as [Ha|Ha];
          [injection Ha as -> ->; eexists; reflexivity|]).
  inversion Ha.
Defined.

Lemma JsonFormatter_format_failure_witness :
  exists e, snd (JsonFormatter_format rt0 1%positive
                   (one_record (<["log_id" := a_uuid]> json_example))) = Raise e /\
            (e = TypeError \/ e = ValueError).
Proof.
  destruct (JsonFormatter_format_failure rt0 1%positive
              (one_record (<["log_id" := a_uuid]> json_example))
              (<["log_id" := a_uuid]> json_example) (VStr "hello") "log_id" a_uuid)
    as (_ & H & _).
  - reflexivity.
  - reflexivity.
  - unfold KEYS. repeat constructor.
  - discriminate.
  - reflexivity.
  - intros j. vm_compute. discriminate.
  - destruct (H "hello") as (k' & v' & e & _ & _ & _ & _ & He & Hres).
    + reflexivity.
    + intros k' v' _ _. apply encode_modelled. intros l o Hl.
      cbn in Hl. rewrite lookup_empty in Hl. discriminate.
    + eauto.
Defined.

Lemma ProfileFormatter_format_skips_witness :
  snd (ProfileFormatter_format rt0 float_1024 1%positive
         (one_record (base_record 20 "INFO" (VStr "plain text")))) = Ok "".
Proof.
  apply (ProfileFormatter_format_skips rt0 float_1024 1%positive
           (one_record (base_record 20 "INFO" (VStr "plain text")))
           (base_record 20 "INFO" (VStr "plain text")) (VStr "plain text"));
    reflexivity.
Defined.

Lemma ProfileFormatter_format_mapping_witness :
  exists s, snd (ProfileFormatter_format rt0 float_1024 1%positive profile_store) = Ok s.
Proof.
  destruct (ProfileFormatter_format_mapping rt0 float_1024 1%positive profile_store
              (base_record 20 "INFO" (VDict 5%positive)) 5%positive
              float_1700_5 (VStr "run") (VInt 99) (VInt 7))
    as (H & _); [reflexivity..|].
  apply H; [split; reflexivity|]. apply members_encode_plain. intros k v Hk.
  change (the_dict (dicts profile_store) 5%positive) with ({[ "event" := VStr "x" ]} : pydict) in Hk.
  unfold merged in Hk.
  repeat (apply lookup_insert_Some in Hk as [[_ <-]|[_ Hk]]; [reflexivity|]).
  apply lookup_singleton_Some in Hk as [_ <-]. reflexivity.
Defined.

Lemma ColorFormatter_format_styled_witness :
  snd (ColorFormatter_format rt0 level_code0 (ColorFormatter_init sgr_palette "%(message)s")
         1%positive (one_record (base_record 10 "DEBUG" (VStr "hi")))) =
  Ok ((sgr 1 ++ sgr 30) ++ ("" ++ "hi" ++ "") ++ sgr 0).
Proof.
  destruct (ColorFormatter_format_styled rt0 sgr_palette level_code0 "%(message)s" 1%positive
              (one_record (base_record 10 "DEBUG" (VStr "hi")))
              (base_record 10 "DEBUG" (VStr "hi")) DEBUG)
    as (_ & _ & _ & H).
  - intros []; split; reflexivity.
  - intros [] [] E; try reflexivity; vm_compute in E; discriminate.
  - reflexivity.
  - reflexivity.
  - apply (H "" "" (VStr "hi") empty_tuple VNone VNone VNone); reflexivity.
Defined.

Lemma ColorFormatter_format_unmapped_witness :
  ColorFormatter_format rt0 level_code0 (ColorFormatter_init sgr_palette "%(message)s")
    1%positive (one_record (base_record 15 "VERBOSE" (VStr "hi"))) =
  (one_record (base_record 15 "VERBOSE" (VStr "hi")), Raise AttributeError).
Proof.
  apply (ColorFormatter_format_unmapped rt0 sgr_palette level_code0 "%(message)s" 1%positive
           (one_record (base_record 15 "VERBOSE" (VStr "hi")))
           (base_record 15 "VERBOSE" (VStr "hi")) 15).
  - reflexivity.
  - reflexivity.
  - intros []; discriminate.
Defined.

Lemma strip_csi_without_escape_witness : strip_csi "plain text" = "plain text".
Proof. apply strip_csi_without_escape. reflexivity. Defined.

Lemma PlainFormatter_format_frame_witness :
  let σ := one_record (base_record 20 "INFO" (VStr nested_escape)) in
  recs (fst (PlainFormatter_format rt0 "%(message)s" 1%positive σ)) !! 1%positive =
    Some (base_record 20 "INFO" (VStr nested_escape)) /\
  dicts (fst (PlainFormatter_format rt0 "%(message)s" 1%positive σ)) = dicts σ.
Proof.
  apply (PlainFormatter_format_frame rt0 "%(message)s" 1%positive
           (one_record (base_record 20 "INFO" (VStr nested_escape)))).
  reflexivity.
Defined.

Lemma JsonFormatter_format_frame_witness :
  recs (fst (JsonFormatter_format rt0 1%positive profile_store)) !! 1%positive =
    Some (base_record 20 "INFO" (VDict 5%positive)) /\
  dicts (fst (JsonFormatter_format rt0 1%positive profile_store)) = dicts profile_store.
Proof. apply (JsonFormatter_format_frame rt0 1%positive profile_store). reflexivity. Defined.

Lemma PlainFormatter_format_template_witness :
  snd (PlainFormatter_format rt0 ("<" ++ "%(message)s" ++ ">") 1%positive
         (one_record (base_record 20 "INFO" (VStr "hello")))) =
    Ok ("<" ++ str_take 512 (strip_csi "hello") ++ ">") /\
  str_take 512 (strip_csi "hello") = strip_csi "hello".
Proof.
  destruct (PlainFormatter_format_template rt0 "<" ">" 1%positive
              (one_record (base_record 20 "INFO" (VStr "hello")))
              (base_record 20 "INFO" (VStr "hello")) "hello"
              empty_tuple VNone VNone VNone)
    as (H1 & _ & _ & H4); [reflexivity..|].
  split; [exact H1|]. apply H4. vm_compute. lia.
Defined.

Lemma strip_csi_coloured_witness :
  strip_csi (coloured [("", Sequence "1;31" "m"); ("error", Sequence "0" "m")] "") =
    "error" /\
  has_csi "error" = false.
Proof.
  destruct (strip_csi_coloured [("", Sequence "1;31" "m"); ("error", Sequence "0" "m")] "")
    as (H1 & H2 & _).
  - repeat constructor.
  - reflexivity.
  - split; [exact H1|exact H2].
Defined.

Lemma PlainFormatter_format_coloured_witness :
  snd (PlainFormatter_format rt0 ("" ++ "%(message)s" ++ "") 1%positive
         (one_record (base_record 40 "ERROR"
            (VStr (coloured [("", Sequence "31" "m"); ("failed", Sequence "0" "m")] ""))))) =
    Ok "failed".
Proof.
  destruct (PlainFormatter_format_coloured rt0 "" "" 1%positive
              (one_record (base_record 40 "ERROR"
                 (VStr (coloured [("", Sequence "31" "m"); ("failed", Sequence "0" "m")] ""))))
              (base_record 40 "ERROR"
                 (VStr (coloured [("", Sequence "31" "m"); ("failed", Sequence "0" "m")] "")))
              [("", Sequence "31" "m"); ("failed", Sequence "0" "m")] ""
              empty_tuple VNone VNone VNone)
    as (H & _);
    [reflexivity|reflexivity|repeat constructor|reflexivity..|exact H].
Defined.

Lemma PlainFormatter_format_arguments_witness :
  snd (PlainFormatter_format rt_map "%(message)s" 1%positive coloured_argument_store) =
    Ok (sgr 31 ++ "root" ++ sgr 0) /\
  has_csi (sgr 31 ++ "root" ++ sgr 0) = true.
Proof.
  split; [|reflexivity].
  apply (PlainFormatter_format_arguments rt_map "" "" 1%positive coloured_argument_store
           (<["args" := VDict 5%positive]> (base_record 20 "INFO" (VStr "%(who)s")))
           "%(who)s" (VDict 5%positive) (sgr 31 ++ "root" ++ sgr 0) VNone VNone VNone);
    reflexivity.
Defined.

Lemma JsonFormatter_format_allow_list_witness :
  snd (JsonFormatter_format rt0 1%positive
         (one_record (<["args" := VInt 5]> json_example))) =
  snd (JsonFormatter_format rt0 1%positive (one_record json_example)).
Proof.
  apply (JsonFormatter_format_allow_list rt0 1%positive 1%positive
           (one_record (<["args" := VInt 5]> json_example)) (one_record json_example)
           (<["args" := VInt 5]> json_example) json_example); try reflexivity.
  intros k Hk. apply lookup_insert_ne. intros <-. unfold KEYS in Hk.
  repeat (apply elem_of_cons in Hk as [Hk|Hk]; [discriminate|]). inversion Hk.
Defined.

Lemma JsonFormatter_format_printable_witness :
  exists out,
    snd (JsonFormatter_format rt0 1%positive
           (one_record (<["msg" := VStr nested_escape]> json_example))) = Ok out /\
    printable out = true /\ has_csi out = false /\ one_line out = true.
Proof.
  eexists. split; [reflexivity|].
  apply (JsonFormatter_format_printable rt0 1%positive
           (one_record (<["msg" := VStr nested_escape]> json_example))
           (<["msg" := VStr nested_escape]> json_example)).
  - reflexivity.
  - intros l d H. cbn in H. rewrite lookup_empty in H. discriminate.
  - intros k v H. apply lookup_insert_Some in H as [[_ <-]|[_ H]]; [exact I|].
    apply elem_of_list_to_map_2 in H.
    repeat (apply elem_of_cons in H as [H|H]; [injection H as -> ->; exact I|]).
    inversion H.
  - reflexivity.
Defined.

Lemma JsonFormatter_format_after_witness :
  snd (JsonFormatter_format rt0 1%positive
         (fst (ColorFormatter_format rt0 level_code0
                 (ColorFormatter_init sgr_palette "%(message)s") 1%positive
                 (one_record (base_record 20 "INFO" (VStr "hi")))))) =
  snd (JsonFormatter_format rt0 1%positive (one_record (base_record 20 "INFO" (VStr "hi")))).
Proof.
  destruct (JsonFormatter_format_after rt0 level_code0 1%positive
              (one_record (base_record 20 "INFO" (VStr "hi")))
              (base_record 20 "INFO" (VStr "hi"))) as (_ & _ & H); [reflexivity|].
  apply H.
Defined.

Lemma ProfileFormatter_format_merges_witness :
  let σ' := fst (ProfileFormatter_format rt0 float_1024 1%positive profile_store) in
  the_dict (dicts σ') 5%positive !! "thread" = Some (VInt 7) /\
  the_dict (dicts σ') 5%positive !! "event" = Some (VStr "x").
Proof.
  destruct (ProfileFormatter_format_merges rt0 float_1024 1%positive profile_store
              (base_record 20 "INFO" (VDict 5%positive)) 5%positive
              float_1700_5 (VStr "run") (VInt 99) (VInt 7))
    as (_ & _ & _ & H4 & _ & H6 & _); [reflexivity..|].
  split; [exact H4|]. rewrite H6; [reflexivity|].
  intros H. repeat (apply elem_of_cons in H as [H|H]; [discriminate|]). inversion H.
Defined.

Lemma ProfileFormatter_format_missing_attribute_witness :
  let σ := Store {[ 1%positive := delete "thread" (base_record 20 "INFO" (VDict 5%positive)) ]}
                 {[ 5%positive := dict_of {[ "event" := VStr "x" ]} ]} in
  snd (ProfileFormatter_format rt0 float_1024 1%positive σ) = Raise AttributeError /\
  dicts (fst (ProfileFormatter_format rt0 float_1024 1%positive σ)) = dicts σ.
Proof.
  cbv zeta.
  destruct (ProfileFormatter_format_missing_attribute rt0 float_1024 1%positive
              (Store {[ 1%positive := delete "thread" (base_record 20 "INFO" (VDict 5%positive)) ]}
                     {[ 5%positive := dict_of {[ "event" := VStr "x" ]} ]})
              (delete "thread" (base_record 20 "INFO" (VDict 5%positive))) 5%positive "thread")
    as (H1 & H2 & _).
  - reflexivity.
  - reflexivity.
  - repeat constructor.
  - reflexivity.
  - split; [exact H1|exact H2].
Defined.

Lemma ProfileFormatter_format_again_witness :
  snd (ProfileFormatter_format rt0 (VInt 2048) 1%positive
         (fst (ProfileFormatter_format rt0 float_1024 1%positive profile_store))) =
  snd (ProfileFormatter_format rt0 (VInt 2048) 1%positive profile_store).
Proof.
  destruct (ProfileFormatter_format_again rt0 float_1024 (VInt 2048) 1%positive profile_store
              (base_record 20 "INFO" (VDict 5%positive)) 5%positive
              float_1700_5 (VStr "run") (VInt 99) (VInt 7))
    as (H & _); [reflexivity..|exact H].
Defined.

Lemma format_without_message_witness :
  snd (JsonFormatter_format rt0 1%positive (one_record (delete "msg" json_example))) =
    Raise AttributeError.
Proof.
  destruct (format_without_message rt0 1%positive (one_record (delete "msg" json_example))
              (delete "msg" json_example)) as (_ & H & _); [reflexivity..|exact H].
Defined.

Lemma ColorFormatter_format_stores_message_witness :
  exists m,
    snd (getMessage rt0 1%positive (one_record (base_record 10 "DEBUG" (VStr "hi")))) = Ok m /\
    the_record
      (fst (ColorFormatter_format rt0 level_code0
              (ColorFormatter_init sgr_palette "%(message)s") 1%positive
              (one_record (base_record 10 "DEBUG" (VStr "hi")))))
      1%positive !! "message" = Some (VStr m).
Proof.
  apply (ColorFormatter_format_stores_message rt0 level_code0
           (ColorFormatter_init sgr_palette "%(message)s") 1%positive
           (one_record (base_record 10 "DEBUG" (VStr "hi")))
           ((sgr 1 ++ sgr 30) ++ "hi" ++ sgr 0)).
  reflexivity.
Defined.

Lemma ColorFormatter_format_bad_level_witness :
  ColorFormatter_format rt0 level_code0 (ColorFormatter_init sgr_palette "%(message)s")
    1%positive (one_record (<["levelno" := VStr "INFO"]> (base_record 20 "INFO" (VStr "hi")))) =
  (one_record (<["levelno" := VStr "INFO"]> (base_record 20 "INFO" (VStr "hi"))),
   Raise AttributeError).
Proof.
  destruct (ColorFormatter_format_bad_level rt0 level_code0
              (ColorFormatter_init sgr_palette "%(message)s") 1%positive
              (one_record (<["levelno" := VStr "INFO"]> (base_record 20 "INFO" (VStr "hi"))))
              (<["levelno" := VStr "INFO"]> (base_record 20 "INFO" (VStr "hi"))))
    as (_ & H & _); [reflexivity|].
  apply (H (VStr "INFO")); [reflexivity|right; reflexivity].
Defined.

Lemma JsonFormatter_format_after_profile_witness :
  snd (JsonFormatter_format rt0 1%positive
         (fst (ProfileFormatter_format rt0 float_1024 1%positive profile_store))) =
  (let? text := dict_text rt0
                  (dict_of (merged {[ "event" := VStr "x" ]} float_1700_5 (VStr "run")
                              (VInt 99) (VInt 7) float_1024)) in
   json_dumps_fresh rt0
     (dicts (fst (ProfileFormatter_format rt0 float_1024 1%positive profile_store)))
     (pick_present KEYS
        (<["msg" := VStr (strip_csi text)]> (base_record 20 "INFO" (VDict 5%positive))))).
Proof.
  destruct (JsonFormatter_format_after_profile rt0 float_1024 1%positive profile_store
              (base_record 20 "INFO" (VDict 5%positive)) 5%positive
              float_1700_5 (VStr "run") (VInt 99) (VInt 7))
    as (_ & H); [reflexivity..|exact H].
Defined.
